(** * ETF data ingestion: a shallow embedding of the two cloud functions

    [cloud_functions/etf_data_ingest/main.py] fetches an ETF's profile and
    holdings from the Alpha Vantage API and stores every response as a
    timestamped object in a storage bucket;
    [cloud_functions/first_cloud_function/main.py] is a first, smaller
    handler.

    The Python code talks to the outside world (clock, network, storage,
    logger) and uses exceptions for control flow.  It is embedded as
    programs in a small monad: a program reads the history of what happened
    so far, emits the events it performs, may update the local variables of
    its frame, and either returns a value or raises an exception. *)

From Stdlib Require Import List String Ascii Bool Arith NArith ZArith Lia.
From Stdlib Require Import Floats.SpecFloat.
Import ListNotations.
Open Scope list_scope.
Open Scope string_scope.
Set Warnings "-register-all".

(** ** Python values *)

(** The values that [json] decoding produces, which are also the values the
    handlers receive in a request body.  A [dict] is kept as its items. *)
Inductive value : Type :=
| VNone
| VBool (b : bool)
| VInt (z : Z)
| VFloat (f : spec_float)
| VStr (s : string)
| VList (l : list value)
| VDict (items : list (string * value)).

(** Truth value of an object, as [if x] and [not x] compute it. *)
Definition truthy (v : value) : bool :=
  match v with
  | VNone => false
  | VBool b => b
  | VInt z => negb (Z.eqb z 0)
  | VFloat (S754_zero _) => false
  | VFloat _ => true
  | VStr s => negb (String.eqb s "")
  | VList l => match l with [] => false | _ => true end
  | VDict d => match d with [] => false | _ => true end
  end.

(** [k in d] and [d.get(k)] on the items of a dict. *)
Definition dict_has (k : string) (d : list (string * value)) : bool :=
  existsb (fun kv => String.eqb (fst kv) k) d.

Fixpoint dict_get (k : string) (d : list (string * value)) : option value :=
  match d with
  | [] => None
  | (k', v) :: d' => if String.eqb k' k then Some v else dict_get k d'
  end.

(** [sub in s] on strings. *)
Fixpoint str_contains (sub s : string) : bool :=
  if String.prefix sub s then true
  else match s with
       | EmptyString => false
       | String _ s' => str_contains sub s'
       end.

(** ** Exceptions *)

(** The classes of exception the code tells apart.  All of them derive from
    [Exception]; [CRequestsJSONDecodeError] is the class [response.json()]
    raises, which derives from both [requests.RequestException] and
    [json.JSONDecodeError]. *)
Inductive exn_class : Type :=
| CRequestException (subclass : string)
| CRequestsJSONDecodeError
| CJSONDecodeError
| CValueError
| CTypeError
| CAttributeError
| CNameError
| COther (name : string).

Record exn : Type := mkExn { exn_cls : exn_class; exn_str : string }.

Definition is_RequestException (e : exn) : bool :=
  match exn_cls e with
  | CRequestException _ | CRequestsJSONDecodeError => true
  | _ => false
  end.

Definition is_JSONDecodeError (e : exn) : bool :=
  match exn_cls e with
  | CJSONDecodeError | CRequestsJSONDecodeError => true
  | _ => false
  end.

Inductive result (A : Type) : Type :=
| Ok (a : A)
| Raise (e : exn).
Arguments Ok {A} a.
Arguments Raise {A} e.

(** ** The clock and [strftime] *)

Record datetime : Type := mkDatetime {
  year : N; month : N; day : N;
  hour : N; minute : N; second : N;
  microsecond : N
}.

Definition wf_datetime (t : datetime) : Prop :=
  (1 <= year t <= 9999 /\ 1 <= month t <= 12 /\ 1 <= day t <= 31 /\
   hour t < 24 /\ minute t < 60 /\ second t < 60 /\
   microsecond t < 1000000)%N.

(** The reading of the clock down to the second. *)
Definition seconds_of (t : datetime) : N * N * N * N * N * N :=
  (year t, month t, day t, hour t, minute t, second t).

Definition digit (n : N) : ascii := ascii_of_N (48 + n mod 10).

(** [n] in decimal, zero-padded to [width] digits (the low [width] digits). *)
Fixpoint pad (width : nat) (n : N) : string :=
  match width with
  | 0 => EmptyString
  | S w => pad w (n / 10) ++ String (digit n) EmptyString
  end.

(** [strftime("%Y%m%d_%H%M%S")]; [%Y] is the year in four digits. *)
Definition strftime_stamp (t : datetime) : string :=
  pad 4 (year t) ++ pad 2 (month t) ++ pad 2 (day t) ++ "_" ++
  pad 2 (hour t) ++ pad 2 (minute t) ++ pad 2 (second t).

(** [strftime("%Y/%m/%d")]. *)
Definition strftime_date_path (t : datetime) : string :=
  pad 4 (year t) ++ "/" ++ pad 2 (month t) ++ "/" ++ pad 2 (day t).

(** [isoformat()]: the fraction is left out when it is zero. *)
Definition isoformat (t : datetime) : string :=
  pad 4 (year t) ++ "-" ++ pad 2 (month t) ++ "-" ++ pad 2 (day t) ++ "T" ++
  pad 2 (hour t) ++ ":" ++ pad 2 (minute t) ++ ":" ++ pad 2 (second t) ++
  (if N.eqb (microsecond t) 0 then "" else "." ++ pad 6 (microsecond t)).

(** ** What the program does to the world *)

(** [requests.get(url, params=..., timeout=...)] and what comes back; a call
    without [params] has [None] in their place. *)
Record params : Type := mkParams {
  p_function : string;
  p_symbol : value;
  p_apikey : string
}.

Record response : Type := mkResponse {
  status_code : nat;
  (** the message of the [HTTPError] that [raise_for_status] builds *)
  http_error_msg : string;
  (** [response.json()]: the decoded body, or the decoding error *)
  resp_json : result value
}.

Inductive get_result : Type :=
| GetRaises (e : exn)
| GetReturns (r : response).

(** One [blob.upload_from_string] on a blob of the bucket.  The content is
    [json.dumps(data, indent=2, ensure_ascii=False)], kept as [data]. *)
Record upload_call : Type := mkUpload {
  up_bucket : string;
  up_blob_name : string;
  up_metadata : list (string * value);
  up_data : value;
  up_content_type : string
}.

Inductive log_level : Type := INFO | WARNING | ERROR.

Inductive event : Type :=
| EvNow (t : datetime)
| EvLog (level : log_level) (msg : string)
| EvGet (url : string) (p : option params) (timeout : nat) (r : get_result)
| EvStorageClient (r : option exn)
| EvUpload (u : upload_call) (r : option exn).

Definition trace : Type := list event.

(** The collaborators.  Each answers from the history so far, so a
    collaborator may behave differently on every call.  Exceptions they
    raise are [Exception]s. *)
Record runtime : Type := mkRuntime {
  (** [os.environ.get] *)
  environ : string -> option string;
  (** [datetime.now()] *)
  clock : trace -> datetime;
  (** [requests.get] *)
  http_get : trace -> string -> option params -> nat -> get_result;
  (** [storage.Client()]: [Some e] when it raises *)
  storage_client : trace -> option exn;
  (** [blob.upload_from_string]: [Some e] when it raises *)
  upload : trace -> upload_call -> option exn;
  (** [str(v)] for a [v] that is not a string *)
  py_repr : value -> string
}.

(** ** Programs *)

(** A program runs in a frame with local state [S], after the history [h];
    it gives a result, the new local state and the events it performed.
    The local state survives an exception, as a mutated Python object
    does. *)
Definition prog (S A : Type) : Type := S -> trace -> result A * S * list event.

Definition ret {S A} (a : A) : prog S A := fun s _ => (Ok a, s, []).

Definition raise {S A} (e : exn) : prog S A := fun s _ => (Raise e, s, []).

Definition bind {S A B} (m : prog S A) (k : A -> prog S B) : prog S B :=
  fun s h =>
    match m s h with
    | (Ok a, s1, ev1) =>
        match k a s1 (h ++ ev1)%list with
        | (r, s2, ev2) => (r, s2, (ev1 ++ ev2)%list)
        end
    | (Raise e, s1, ev1) => (Raise e, s1, ev1)
    end.

Notation "x <- m ;; k" := (bind m (fun x => k))
  (at level 61, m at next level, right associativity).
Notation "m ;;; k" := (bind m (fun _ => k))
  (at level 61, right associativity).

(** [try: body except Exception as e: handler(e)]. *)
Definition try_except {S A} (body : prog S A) (handler : exn -> prog S A)
  : prog S A :=
  fun s h =>
    match body s h with
    | (Ok a, s1, ev1) => (Ok a, s1, ev1)
    | (Raise e, s1, ev1) =>
        match handler e s1 (h ++ ev1)%list with
        | (r, s2, ev2) => (r, s2, (ev1 ++ ev2)%list)
        end
    end.

Definition get_local {S} : prog S S := fun s _ => (Ok s, s, []).

Definition modify_local {S} (f : S -> S) : prog S unit :=
  fun s _ => (Ok tt, f s, []).

(** Calling a function: it runs in a frame of its own, started at [s0]. *)
Definition call {S S' A} (s0 : S') (m : prog S' A) : prog S A :=
  fun s h => match m s0 h with (r, _, ev) => (r, s, ev) end.

(** Performing an event whose outcome the history decides. *)
Definition perform {S A} (ask : trace -> A) (ev : A -> event) : prog S A :=
  fun s h => (Ok (ask h), s, [ev (ask h)]).

Definition emit {S} (e : event) : prog S unit := fun s _ => (Ok tt, s, [e]).

Definition of_result {S A} (r : result A) : prog S A :=
  match r with Ok a => ret a | Raise e => raise e end.

(** [for x in xs: body(x)]. *)
Fixpoint for_each {S A} (xs : list A) (body : A -> prog S unit) : prog S unit :=
  match xs with
  | [] => ret tt
  | x :: xs' => body x ;;; for_each xs' body
  end.

(** ** Operations on values that can raise *)

(** [k in data]. *)
Definition py_in (k : string) (data : value) : result bool :=
  match data with
  | VDict d => Ok (dict_has k d)
  | VList l =>
      Ok (existsb (fun x => match x with
                            | VStr s => String.eqb s k
                            | _ => false
                            end) l)
  | VStr s => Ok (str_contains k s)
  | VNone => Raise (mkExn CTypeError "argument of type 'NoneType' is not iterable")
  | VBool _ => Raise (mkExn CTypeError "argument of type 'bool' is not iterable")
  | VInt _ => Raise (mkExn CTypeError "argument of type 'int' is not iterable")
  | VFloat _ => Raise (mkExn CTypeError "argument of type 'float' is not iterable")
  end.

(** [data[k]] for a string [k]. *)
Definition py_getitem (k : string) (data : value) : result value :=
  match data with
  | VDict d =>
      match dict_get k d with
      | Some v => Ok v
      | None => Raise (mkExn (COther "KeyError") ("'" ++ k ++ "'"))
      end
  | VList _ =>
      Raise (mkExn CTypeError "list indices must be integers or slices, not str")
  | VStr _ =>
      Raise (mkExn CTypeError "string indices must be integers, not 'str'")
  | VNone => Raise (mkExn CTypeError "'NoneType' object is not subscriptable")
  | VBool _ => Raise (mkExn CTypeError "'bool' object is not subscriptable")
  | VInt _ => Raise (mkExn CTypeError "'int' object is not subscriptable")
  | VFloat _ => Raise (mkExn CTypeError "'float' object is not subscriptable")
  end.

(** [data.get(k, default)]: only a dict has the method. *)
Definition py_get (k : string) (default : value) (data : value) : result value :=
  match data with
  | VDict d =>
      match dict_get k d with
      | Some v => Ok v
      | None => Ok default
      end
  | VList _ => Raise (mkExn CAttributeError "'list' object has no attribute 'get'")
  | VStr _ => Raise (mkExn CAttributeError "'str' object has no attribute 'get'")
  | VNone => Raise (mkExn CAttributeError "'NoneType' object has no attribute 'get'")
  | VBool _ => Raise (mkExn CAttributeError "'bool' object has no attribute 'get'")
  | VInt _ => Raise (mkExn CAttributeError "'int' object has no attribute 'get'")
  | VFloat _ => Raise (mkExn CAttributeError "'float' object has no attribute 'get'")
  end.

(** [response.raise_for_status()]: an [HTTPError] for a 4xx or 5xx status. *)
Definition raise_for_status {S} (r : response) : prog S unit :=
  if Nat.leb 400 (status_code r) && Nat.ltb (status_code r) 600
  then raise (mkExn (CRequestException "HTTPError") (http_error_msg r))
  else ret tt.

(** * [cloud_functions/etf_data_ingest/main.py] *)

(** The [result] dict that [ingest_etf_data] builds.  The keys ['status']
    and ['error_message'] are set along the way: [None] is a key that is
    not there. *)
Record outcome : Type := mkOutcome {
  o_symbol : value;
  o_timestamp : string;
  files_created : list string;
  status : option string;
  error_message : option string
}.

Definition append_file (path : string) (o : outcome) : outcome :=
  mkOutcome (o_symbol o) (o_timestamp o) (files_created o ++ [path])%list
            (status o) (error_message o).

Definition set_status (st : string) (o : outcome) : outcome :=
  mkOutcome (o_symbol o) (o_timestamp o) (files_created o)
            (Some st) (error_message o).

Definition set_error_message (msg : string) (o : outcome) : outcome :=
  mkOutcome (o_symbol o) (o_timestamp o) (files_created o)
            (status o) (Some msg).

(** [result['status']] *)
Definition outcome_getitem_status (o : outcome) : result string :=
  match status o with
  | Some st => Ok st
  | None => Raise (mkExn (COther "KeyError") "'status'")
  end.

(** An instance of the class: what [__init__] stores in [self]. *)
Record AlphaVantageETFIngest : Type := mkIngest {
  api_key : string;
  base_url : string;
  bucket_name : string
}.

(** What the HTTP handler receives: the method, and what
    [request.get_json(silent=True)] gives, which is [None] for a body that
    is missing or is not JSON. *)
Record request : Type := mkRequest {
  method : string;
  get_json : option value
}.

(** What the HTTP handler returns next to the status code. *)
Inductive body : Type :=
| BodyError (error : string)
| BodyOutcome (o : outcome)
| BodyFailure (st : string) (msg : string) (timestamp : string).

(** The data of the scheduler's event, in the documented format: a list
    under ['symbols'] and a value under ['include_holdings'], either of
    which may be missing. *)
Record cloud_event : Type := mkCloudEvent {
  ce_symbols : option (list value);
  ce_include_holdings : option value
}.

(** [not x] for what [os.environ.get] gives. *)
Definition env_missing (v : option string) : bool :=
  match v with
  | None => true
  | Some s => String.eqb s ""
  end.

Definition env_value (v : option string) : string :=
  match v with
  | None => ""
  | Some s => s
  end.

Section EtfDataIngest.

Variable rt : runtime.

(** [f"{v}"] *)
Definition fmt (v : value) : string :=
  match v with
  | VStr s => s
  | _ => py_repr rt v
  end.

Definition now {S} : prog S datetime := perform (clock rt) EvNow.

Definition log {S} (level : log_level) (msg : string) : prog S unit :=
  emit (EvLog level msg).

Definition requests_get {S} (url : string) (p : option params) (timeout : nat)
  : prog S response :=
  r <- perform (fun h => http_get rt h url p timeout) (EvGet url p timeout) ;;
  match r with
  | GetRaises e => raise e
  | GetReturns resp => ret resp
  end.

Definition upload_from_string {S} (u : upload_call) : prog S unit :=
  r <- perform (fun h => upload rt h u) (EvUpload u) ;;
  match r with
  | Some e => raise e
  | None => ret tt
  end.

Definition AlphaVantageETFIngest_init {S} : prog S AlphaVantageETFIngest :=
  let api_key := environ rt "ALPHA_VANTAGE_API_KEY" in
  let base_url := "https://www.alphavantage.co/query" in
  let bucket_name := environ rt "GCS_BUCKET_NAME" in
  if env_missing api_key then
    raise (mkExn CValueError
             "ALPHA_VANTAGE_API_KEY environment variable is required")
  else if env_missing bucket_name then
    raise (mkExn CValueError
             "GCS_BUCKET_NAME environment variable is required")
  else
    r <- perform (storage_client rt) EvStorageClient ;;
    match r with
    | Some e => raise e
    | None => ret (mkIngest (env_value api_key) base_url (env_value bucket_name))
    end.

Definition get_etf_profile {S} (self : AlphaVantageETFIngest) (symbol : value)
  : prog S value :=
  let params := mkParams "ETF_PROFILE" symbol (api_key self) in
  log INFO ("正在获取 ETF " ++ fmt symbol ++ " 的 profile 数据") ;;;
  try_except
    (response <- requests_get (base_url self) (Some params) 30 ;;
     raise_for_status response ;;;
     data <- of_result (resp_json response) ;;
     has_error <- of_result (py_in "Error Message" data) ;;
     (if has_error : bool then
        msg <- of_result (py_getitem "Error Message" data) ;;
        raise (mkExn CValueError ("Alpha Vantage API 错误: " ++ fmt msg))
      else ret tt) ;;;
     has_note <- of_result (py_in "Note" data) ;;
     (if has_note : bool then
        note <- of_result (py_getitem "Note" data) ;;
        log WARNING ("Alpha Vantage API 注意事项: " ++ fmt note)
      else ret tt) ;;;
     ret data)
    (fun e =>
       if is_RequestException e then
         log ERROR ("请求 Alpha Vantage API 失败: " ++ exn_str e) ;;; raise e
       else if is_JSONDecodeError e then
         log ERROR ("解析 API 响应失败: " ++ exn_str e) ;;; raise e
       else raise e).

Definition get_etf_holdings {S} (self : AlphaVantageETFIngest) (symbol : value)
  : prog S value :=
  let params := mkParams "ETF_HOLDINGS" symbol (api_key self) in
  log INFO ("正在获取 ETF " ++ fmt symbol ++ " 的 holdings 数据") ;;;
  try_except
    (response <- requests_get (base_url self) (Some params) 30 ;;
     raise_for_status response ;;;
     data <- of_result (resp_json response) ;;
     has_error <- of_result (py_in "Error Message" data) ;;
     (if has_error : bool then
        msg <- of_result (py_getitem "Error Message" data) ;;
        raise (mkExn CValueError ("Alpha Vantage API 错误: " ++ fmt msg))
      else ret tt) ;;;
     has_note <- of_result (py_in "Note" data) ;;
     (if has_note : bool then
        note <- of_result (py_getitem "Note" data) ;;
        log WARNING ("Alpha Vantage API 注意事项: " ++ fmt note)
      else ret tt) ;;;
     ret data)
    (fun e =>
       if is_RequestException e then
         log ERROR ("请求 Alpha Vantage API 失败: " ++ exn_str e) ;;; raise e
       else if is_JSONDecodeError e then
         log ERROR ("解析 API 响应失败: " ++ exn_str e) ;;; raise e
       else raise e).

(** The object path that [store_to_gcs] builds from its two clock
    readings, already formatted. *)
Definition blob_name_of (symbol : value) (data_type timestamp date_path : string)
  : string :=
  "etf_data/" ++ data_type ++ "/" ++ fmt symbol ++ "/" ++ date_path ++ "/" ++
  fmt symbol ++ "_" ++ data_type ++ "_" ++ timestamp ++ ".json".

Definition store_to_gcs {S} (self : AlphaVantageETFIngest)
           (data : value) (symbol : value) (data_type : string)
  : prog S string :=
  t1 <- now ;;
  let timestamp := strftime_stamp t1 in
  t2 <- now ;;
  let date_path := strftime_date_path t2 in
  let blob_name := blob_name_of symbol data_type timestamp date_path in
  log INFO ("正在将数据存储到 GCS: " ++ blob_name) ;;;
  try_except
    (let metadata := [("symbol", symbol);
                      ("data_type", VStr data_type);
                      ("ingestion_timestamp", VStr timestamp);
                      ("source", VStr "alphavantage")] in
     upload_from_string
       (mkUpload (bucket_name self) blob_name metadata data "application/json") ;;;
     log INFO ("数据成功存储到 GCS: gs://" ++ bucket_name self ++ "/" ++ blob_name) ;;;
     ret ("gs://" ++ bucket_name self ++ "/" ++ blob_name))
    (fun e =>
       log ERROR ("存储到 GCS 失败: " ++ exn_str e) ;;; raise e).

(** The [try] block of [ingest_etf_data], run on the [result] dict. *)
Definition ingest_steps (self : AlphaVantageETFIngest) (symbol : value)
           (include_holdings : bool) : prog outcome unit :=
  log INFO ("开始处理 ETF " ++ fmt symbol ++ " 的数据") ;;;
  profile_data <- get_etf_profile self symbol ;;
  profile_path <- store_to_gcs self profile_data symbol "profile" ;;
  modify_local (append_file profile_path) ;;;
  (if include_holdings then
     holdings_data <- get_etf_holdings self symbol ;;
     holdings_path <- store_to_gcs self holdings_data symbol "holdings" ;;
     modify_local (append_file holdings_path)
   else ret tt) ;;;
  modify_local (set_status "success") ;;;
  log INFO ("ETF " ++ fmt symbol ++ " 数据处理完成").

(** [include_holdings] is only ever tested by [if], so it is passed as its
    truth value. *)
Definition ingest_etf_data {S} (self : AlphaVantageETFIngest) (symbol : value)
           (include_holdings : bool) : prog S outcome :=
  t <- now ;;
  call (mkOutcome symbol (isoformat t) [] None None)
    (try_except
       (ingest_steps self symbol include_holdings)
       (fun e =>
          modify_local (set_status "error") ;;;
          modify_local (set_error_message (exn_str e)) ;;;
          log ERROR ("处理 ETF " ++ fmt symbol ++ " 数据时出错: " ++ exn_str e)) ;;;
     get_local).

Definition default_to (d : value) (v : option value) : value :=
  match v with
  | Some x => x
  | None => d
  end.

(** The HTTP entry point; it returns a body and a status code. *)
Definition etf_data_ingest (req : request) : prog unit (body * nat) :=
  try_except
    (if negb (String.eqb (method req) "POST") then
       ret (BodyError "只支持 POST 请求", 405)
     else
       match get_json req with
       | None => ret (BodyError "请求体必须是有效的 JSON", 400)
       | Some request_json =>
           if negb (truthy request_json) then
             ret (BodyError "请求体必须是有效的 JSON", 400)
           else
             symbol <- of_result (py_get "symbol" VNone request_json) ;;
             if negb (truthy symbol) then
               ret (BodyError "参数 symbol 是必需的", 400)
             else
               include_holdings <-
                 of_result (py_get "include_holdings" (VBool true) request_json) ;;
               ingest <- AlphaVantageETFIngest_init ;;
               result <- ingest_etf_data ingest symbol (truthy include_holdings) ;;
               st <- of_result (outcome_getitem_status result) ;;
               ret (BodyOutcome result,
                    if String.eqb st "success" then 200 else 500)
       end)
    (fun e =>
       log ERROR ("Cloud Function 执行失败: " ++ exn_str e) ;;;
       t <- now ;;
       ret (BodyFailure "error" (exn_str e) (isoformat t), 500)).

(** The scheduled entry point; [None] is the bare [return]. *)
Definition etf_data_ingest_scheduled (ev : cloud_event)
  : prog unit (option (list outcome)) :=
  try_except
    (let symbols := match ce_symbols ev with Some l => l | None => [] end in
     let include_holdings := default_to (VBool true) (ce_include_holdings ev) in
     if negb (truthy (VList symbols)) then
       log ERROR "未提供 ETF 符号列表" ;;; ret None
     else
       ingest <- AlphaVantageETFIngest_init ;;
       call []
         (for_each symbols
            (fun symbol =>
               log INFO ("处理定时任务中的 ETF: " ++ fmt symbol) ;;;
               result <- ingest_etf_data ingest symbol (truthy include_holdings) ;;
               modify_local (fun results => (results ++ [result])%list)) ;;;
          log INFO ("定时任务完成，处理了 " ++
                    fmt (VInt (Z.of_nat (List.length symbols))) ++ " 个 ETF") ;;;
          results <- get_local ;;
          ret (Some results)))
    (fun e =>
       log ERROR ("定时 Cloud Function 执行失败: " ++ exn_str e) ;;; raise e).

End EtfDataIngest.

(** * [cloud_functions/first_cloud_function/main.py] *)

Module FirstCloudFunction.

(** The names the module binds at its top level: its one [import] and its
    one [def]. *)
Definition module_globals : list string :=
  ["functions_framework"; "hello_http"].

(** The names of [builtins] that the function refers to. *)
Definition builtins : list string := ["ValueError"].

(** Looking a global name up: the module's names, then the builtins. *)
Definition load_global {S} (name : string) : prog S unit :=
  if existsb (String.eqb name) module_globals
     || existsb (String.eqb name) builtins
  then ret tt
  else raise (mkExn CNameError ("name '" ++ name ++ "' is not defined")).

Section Handler.

Variable rt : runtime.

Definition hello_http (req : request) : prog unit value :=
  let url := "https://www.alphavantage.co/query?function=NEWS_SENTIMENT&tickers=AAPL&apikey=demo" in
  load_global "requests" ;;;
  resp <- requests_get rt url None 30 ;;
  raise_for_status resp ;;;
  data <- of_result (resp_json resp) ;;
  has_error <- of_result (py_in "Error Message" data) ;;
  (if has_error : bool then
     load_global "ValueError" ;;;
     msg <- of_result (py_getitem "Error Message" data) ;;
     raise (mkExn CValueError ("Alpha Vantage API 错误: " ++ fmt rt msg))
   else ret tt) ;;;
  ret data.

End Handler.

End FirstCloudFunction.

(** * Observing a run *)

(** Running a program that has no locals of its own. *)
Definition run {A} (m : prog unit A) (h : trace) : result A * list event :=
  match m tt h with (r, _, ev) => (r, ev) end.

(** The upstream queries among some events, in order. *)
Fixpoint api_calls (evs : list event) : list (option params) :=
  match evs with
  | [] => []
  | EvGet _ p _ _ :: evs' => p :: api_calls evs'
  | _ :: evs' => api_calls evs'
  end.

(** The uploads that were attempted, with their outcome. *)
Fixpoint uploads (evs : list event) : list (upload_call * option exn) :=
  match evs with
  | [] => []
  | EvUpload u r :: evs' => (u, r) :: uploads evs'
  | _ :: evs' => uploads evs'
  end.

(** The objects that were written: the uploads that did not raise. *)
Fixpoint written (evs : list event) : list upload_call :=
  match evs with
  | [] => []
  | EvUpload u None :: evs' => u :: written evs'
  | _ :: evs' => written evs'
  end.

(** The symbols whose profile was asked for, in order. *)
Fixpoint profile_queries (evs : list event) : list value :=
  match evs with
  | [] => []
  | EvGet _ (Some p) _ _ :: evs' =>
      if String.eqb (p_function p) "ETF_PROFILE"
      then p_symbol p :: profile_queries evs'
      else profile_queries evs'
  | _ :: evs' => profile_queries evs'
  end.

(** ** Vocabulary for the statements *)

Definition location_of (u : upload_call) : string :=
  "gs://" ++ up_bucket u ++ "/" ++ up_blob_name u.

(** The ['data_type'] an upload is labelled with. *)
Definition kind_of (u : upload_call) : option value :=
  dict_get "data_type" (up_metadata u).

(** A status that [raise_for_status] lets through. *)
Definition status_passes (r : response) : Prop :=
  Nat.leb 400 (status_code r) && Nat.ltb (status_code r) 600 = false.

(** The outcome record after the [except] branch of [ingest_etf_data]. *)
Definition failed (e : exn) (o : outcome) : outcome :=
  set_error_message (exn_str e) (set_status "error" o).

(** The number of distinct symbols in a request. *)
Definition distinct_count (symbols : list string) : nat :=
  List.length (nodup string_dec symbols).

Section Vocabulary.

Variable rt : runtime.
Variable self : AlphaVantageETFIngest.

(** *** Fetching *)

Definition profile_request (symbol : value) : params :=
  mkParams "ETF_PROFILE" symbol (api_key self).

Definition holdings_request (symbol : value) : params :=
  mkParams "ETF_HOLDINGS" symbol (api_key self).

(** What the upstream answers when [get_etf_profile], called after [h],
    sends its query. *)
Definition profile_response (symbol : value) (h : trace) : get_result :=
  http_get rt
    (h ++ [EvLog INFO ("正在获取 ETF " ++ fmt rt symbol ++ " 的 profile 数据")])%list
    (base_url self) (Some (profile_request symbol)) 30.

Definition holdings_response (symbol : value) (h : trace) : get_result :=
  http_get rt
    (h ++ [EvLog INFO ("正在获取 ETF " ++ fmt rt symbol ++ " 的 holdings 数据")])%list
    (base_url self) (Some (holdings_request symbol)) 30.

(** The failure a fetch raises for an upstream error message [v]. *)
Definition api_error (v : value) : exn :=
  mkExn CValueError ("Alpha Vantage API 错误: " ++ fmt rt v).

Definition is_api_error (r : result value) : Prop :=
  exists v, r = Raise (api_error v).

Definition note_warning (v : value) : event :=
  EvLog WARNING ("Alpha Vantage API 注意事项: " ++ fmt rt v).

Definition is_warning (e : event) : bool :=
  match e with
  | EvLog WARNING _ => true
  | _ => false
  end.

(** How a fetch must treat a decoded body that is the dict [d]. *)
Definition classified (d : list (string * value)) (r : result value)
           (ev : list event) : Prop :=
  match dict_get "Error Message" d with
  | Some v => r = Raise (api_error v)
  | None =>
      r = Ok (VDict d) /\
      match dict_get "Note" d with
      | Some note => filter is_warning ev = [note_warning note]
      | None => filter is_warning ev = []
      end
  end.

(** *** Writing *)

(** The history at which [store_to_gcs] reads the clock a second time. *)
Definition after_first_reading (h : trace) : trace :=
  (h ++ [EvNow (clock rt h)])%list.

(** The object [store_to_gcs] tries to write when called after [h]. *)
Definition upload_of (data symbol : value) (data_type : string) (h : trace)
  : upload_call :=
  let timestamp := strftime_stamp (clock rt h) in
  let date_path := strftime_date_path (clock rt (after_first_reading h)) in
  mkUpload (bucket_name self)
           (blob_name_of rt symbol data_type timestamp date_path)
           [("symbol", symbol); ("data_type", VStr data_type);
            ("ingestion_timestamp", VStr timestamp);
            ("source", VStr "alphavantage")]
           data "application/json".

(** *** Ingesting one symbol *)

Variable symbol : value.

Definition fresh_outcome (h : trace) : outcome :=
  mkOutcome symbol (isoformat (clock rt h)) [] None None.

Definition ingest_start (h : trace) : list event :=
  [EvNow (clock rt h); EvLog INFO ("开始处理 ETF " ++ fmt rt symbol ++ " 的数据")].

Definition ingest_error_log (e : exn) : list event :=
  [EvLog ERROR ("处理 ETF " ++ fmt rt symbol ++ " 数据时出错: " ++ exn_str e)].

Definition ingest_done_log : list event :=
  [EvLog INFO ("ETF " ++ fmt rt symbol ++ " 数据处理完成")].

(** The history when [ingest_etf_data], called after [h], starts its
    profile fetch. *)
Definition at_profile_fetch (h : trace) : trace := (h ++ ingest_start h)%list.

(** The profile fetch or the profile write of an ingestion started after
    [h] fails with [e].  The third case is a fetch failure too: the
    upstream answers 200 and reports an error in the body. *)
Inductive profile_step_fails (h : trace) (e : exn) : Prop :=
| profile_fetch_fails ev1 :
    run (get_etf_profile rt self symbol) (at_profile_fetch h) = (Raise e, ev1) ->
    profile_step_fails h e
| profile_api_error_in_200 resp d v :
    profile_response symbol (at_profile_fetch h) = GetReturns resp ->
    status_code resp = 200 ->
    resp_json resp = Ok (VDict d) ->
    dict_get "Error Message" d = Some v ->
    e = api_error v ->
    profile_step_fails h e
| profile_write_fails data ev1 ev2 :
    run (get_etf_profile rt self symbol) (at_profile_fetch h) = (Ok data, ev1) ->
    run (store_to_gcs rt self data symbol "profile")
        (at_profile_fetch h ++ ev1)%list = (Raise e, ev2) ->
    profile_step_fails h e.

(** The profile was fetched and written to [path], and then the holdings
    fetch or the holdings write fails with [e]. *)
Inductive holdings_step_fails (h : trace) (path : string) (e : exn) : Prop :=
| holdings_fetch_fails data ev1 ev2 ev3 :
    run (get_etf_profile rt self symbol) (at_profile_fetch h) = (Ok data, ev1) ->
    run (store_to_gcs rt self data symbol "profile")
        (at_profile_fetch h ++ ev1)%list = (Ok path, ev2) ->
    run (get_etf_holdings rt self symbol)
        (at_profile_fetch h ++ ev1 ++ ev2)%list = (Raise e, ev3) ->
    holdings_step_fails h path e
| holdings_write_fails data ev1 ev2 hdata ev3 ev4 :
    run (get_etf_profile rt self symbol) (at_profile_fetch h) = (Ok data, ev1) ->
    run (store_to_gcs rt self data symbol "profile")
        (at_profile_fetch h ++ ev1)%list = (Ok path, ev2) ->
    run (get_etf_holdings rt self symbol)
        (at_profile_fetch h ++ ev1 ++ ev2)%list = (Ok hdata, ev3) ->
    run (store_to_gcs rt self hdata symbol "holdings")
        (at_profile_fetch h ++ ev1 ++ ev2 ++ ev3)%list = (Raise e, ev4) ->
    holdings_step_fails h path e.

(** Some fetch or write step of the ingestion fails with [e]. *)
Definition step_fails (include_holdings : bool) (h : trace) (e : exn) : Prop :=
  profile_step_fails h e \/
  (include_holdings = true /\ exists path, holdings_step_fails h path e).

(** The profile fetch and write of an ingestion started after [h] both
    succeed, the write giving [path]. *)
Definition profile_step_succeeds (h : trace) (path : string) : Prop :=
  exists data ev1 ev2,
    run (get_etf_profile rt self symbol) (at_profile_fetch h) = (Ok data, ev1) /\
    run (store_to_gcs rt self data symbol "profile")
        (at_profile_fetch h ++ ev1)%list = (Ok path, ev2).

End Vocabulary.

(** The storage key for a symbol's text, a kind and a reading of the clock
    down to the second. *)
Definition storage_key (symbol kind : string) (sec : N * N * N * N * N * N)
  : string :=
  match sec with
  | (y, mo, d, hh, mi, ss) =>
      "etf_data/" ++ kind ++ "/" ++ symbol ++ "/" ++
      pad 4 y ++ "/" ++ pad 2 mo ++ "/" ++ pad 2 d ++ "/" ++
      symbol ++ "_" ++ kind ++ "_" ++
      pad 4 y ++ pad 2 mo ++ pad 2 d ++ "_" ++
      pad 2 hh ++ pad 2 mi ++ pad 2 ss ++ ".json"
  end.

(** Readings of the clock down to the second, within the range of the
    fields. *)
Definition in_range (sec : N * N * N * N * N * N) : Prop :=
  match sec with
  | (y, mo, d, hh, mi, ss) =>
      (y < 10000 /\ mo < 100 /\ d < 100 /\ hh < 100 /\ mi < 100 /\ ss < 100)%N
  end.

(** A response of the HTTP handler that is a client error. *)
Definition client_error (r : body * nat) : Prop :=
  (exists msg, fst r = BodyError msg) /\ (snd r = 400 \/ snd r = 405).

(** The status code the HTTP handler pairs with an outcome. *)
Definition http_code (o : outcome) : nat :=
  match status o with
  | Some st => if String.eqb st "success" then 200 else 500
  | None => 500
  end.

(** One turn of the loop of [etf_data_ingest_scheduled]. *)
Definition batch_body (rt : runtime) (ingest : AlphaVantageETFIngest)
           (include_holdings : value) (symbol : value)
  : prog (list outcome) unit :=
  log INFO ("处理定时任务中的 ETF: " ++ fmt rt symbol) ;;;
  result <- ingest_etf_data rt ingest symbol (truthy include_holdings) ;;
  modify_local (fun results => (results ++ [result])%list).

(** An outcome that says how the ingestion ended. *)
Definition settled (o : outcome) : Prop :=
  (status o = Some "success" /\ error_message o = None) \/
  (status o = Some "error" /\ exists msg, error_message o = Some msg).

(** ** Example collaborators *)

Definition example_time : datetime := mkDatetime 2024 1 2 3 4 5 0.

Definition example_environ (k : string) : option string :=
  if String.eqb k "ALPHA_VANTAGE_API_KEY" then Some "demo"
  else if String.eqb k "GCS_BUCKET_NAME" then Some "etf-bucket"
  else None.

Definition example_self : AlphaVantageETFIngest :=
  mkIngest "demo" "https://www.alphavantage.co/query" "etf-bucket".

Definition example_payload : value := VDict [("net_assets", VStr "1000")].

(** A runtime with a stopped clock, given how the upstream answers a query
    and which uploads the store refuses. *)
Definition example_runtime
           (answer : option params -> get_result)
           (refuse : upload_call -> option exn) : runtime :=
  mkRuntime example_environ (fun _ => example_time)
            (fun _ _ p _ => answer p) (fun _ => None)
            (fun _ u => refuse u) (fun _ => "").

(** Everything works. *)
Definition runtime_ok : runtime :=
  example_runtime
    (fun _ => GetReturns (mkResponse 200 "" (Ok example_payload)))
    (fun _ => None).

(** The upstream reports an error inside a 200 body. *)
Definition runtime_api_error : runtime :=
  example_runtime
    (fun _ => GetReturns
                (mkResponse 200 ""
                   (Ok (VDict [("Error Message", VStr "Invalid API call.")]))))
    (fun _ => None).

(** The upstream adds a rate-limit note to the payload. *)
Definition runtime_note : runtime :=
  example_runtime
    (fun _ => GetReturns
                (mkResponse 200 ""
                   (Ok (VDict [("Note", VStr "5 calls per minute");
                               ("net_assets", VStr "1000")]))))
    (fun _ => None).

Definition storage_down : exn := mkExn (COther "Forbidden") "403 quota exceeded".

(** The store refuses the holdings of SPY. *)
Definition runtime_spy_holdings_refused : runtime :=
  example_runtime
    (fun _ => GetReturns (mkResponse 200 "" (Ok example_payload)))
    (fun u =>
       match dict_get "symbol" (up_metadata u), kind_of u with
       | Some (VStr "SPY"), Some (VStr "holdings") => Some storage_down
       | _, _ => None
       end).

(** No credential is configured. *)
Definition runtime_unconfigured : runtime :=
  mkRuntime (fun _ => None) (fun _ => example_time)
            (fun _ _ _ _ => GetReturns (mkResponse 200 "" (Ok example_payload)))
            (fun _ => None) (fun _ _ => None) (fun _ => "").

(** One second after [example_time]. *)
Definition example_time_later : datetime := mkDatetime 2024 1 2 3 4 6 0.

Definition note_body : list (string * value) :=
  [("Note", VStr "5 calls per minute"); ("net_assets", VStr "1000")].

Definition note_response : response := mkResponse 200 "" (Ok (VDict note_body)).

Definition post (v : value) : request := mkRequest "POST" (Some v).

(** ** More observers *)

(** The GET requests among some events, each with its URL, its parameters
    and its timeout. *)
Fixpoint gets (evs : list event) : list (string * option params * nat) :=
  match evs with
  | [] => []
  | EvGet url p timeout _ :: evs' => (url, p, timeout) :: gets evs'
  | _ :: evs' => gets evs'
  end.

(** The readings of the clock among some events. *)
Fixpoint clock_reads (evs : list event) : list datetime :=
  match evs with
  | [] => []
  | EvNow t :: evs' => t :: clock_reads evs'
  | _ :: evs' => clock_reads evs'
  end.

(** The storage clients created among some events. *)
Fixpoint clients (evs : list event) : list (option exn) :=
  match evs with
  | [] => []
  | EvStorageClient r :: evs' => r :: clients evs'
  | _ :: evs' => clients evs'
  end.

(** The lines logged at level ERROR. *)
Fixpoint error_lines (evs : list event) : list string :=
  match evs with
  | [] => []
  | EvLog ERROR msg :: evs' => msg :: error_lines evs'
  | _ :: evs' => error_lines evs'
  end.

(** What [requests.get], [raise_for_status] and [response.json()] make of
    an upstream answer, before the payload is looked into. *)
Definition decoded (g : get_result) : result value :=
  match g with
  | GetRaises e => Raise e
  | GetReturns r =>
      if Nat.leb 400 (status_code r) && Nat.ltb (status_code r) 600
      then Raise (mkExn (CRequestException "HTTPError") (http_error_msg r))
      else resp_json r
  end.

(** The line a fetch logs at level ERROR when it re-raises [e]. *)
Definition fetch_error_lines (e : exn) : list string :=
  if is_RequestException e then ["请求 Alpha Vantage API 失败: " ++ exn_str e]
  else if is_JSONDecodeError e then ["解析 API 响应失败: " ++ exn_str e]
  else [].

(** A value that has neither keys nor elements to search. *)
Definition is_scalar (v : value) : bool :=
  match v with
  | VNone | VBool _ | VInt _ | VFloat _ => true
  | _ => false
  end.

Definition is_type_error (r : result value) : Prop :=
  exists msg, r = Raise (mkExn CTypeError msg).

(** The day of a reading of the clock. *)
Definition date_of (t : datetime) : N * N * N := (year t, month t, day t).

(** ** More example collaborators *)

Definition connection_refused : exn :=
  mkExn (CRequestException "ConnectionError") "connection refused".

(** The upstream cannot be reached. *)
Definition runtime_down : runtime :=
  example_runtime (fun _ => GetRaises connection_refused) (fun _ => None).

(** The upstream answers 503, with a body that would be a fine payload. *)
Definition runtime_unavailable : runtime :=
  example_runtime
    (fun _ => GetReturns
                (mkResponse 503 "503 Server Error: Service Unavailable"
                            (Ok example_payload)))
    (fun _ => None).

(** The upstream answers 200 with the JSON value [null]. *)
Definition runtime_null_body : runtime :=
  example_runtime (fun _ => GetReturns (mkResponse 200 "" (Ok VNone)))
                  (fun _ => None).

(** The store refuses every upload. *)
Definition runtime_store_down : runtime :=
  example_runtime
    (fun _ => GetReturns (mkResponse 200 "" (Ok example_payload)))
    (fun _ => Some storage_down).

Definition last_second : datetime := mkDatetime 2024 1 2 23 59 59 999999.

Definition next_day : datetime := mkDatetime 2024 1 3 0 0 0 12.

(** A clock that passes midnight after its first reading. *)
Definition runtime_midnight : runtime :=
  mkRuntime example_environ
            (fun h => match clock_reads h with
                      | [] => last_second
                      | _ => next_day
                      end)
            (fun _ _ _ _ => GetReturns (mkResponse 200 "" (Ok example_payload)))
            (fun _ => None) (fun _ _ => None) (fun _ => "").




(** * Properties *)

(** ** Proof steps shared by the lemmas below *)

Ltac unfold_prog :=
  cbv beta iota zeta delta
    [bind ret raise try_except get_local modify_local call perform emit
     of_result log now requests_get upload_from_string raise_for_status].

(** Case analysis on everything a run branches on, outermost first. *)
Ltac case_prog :=
  repeat (unfold_prog;
          match goal with
          | |- context [match ?x with _ => _ end] =>
              lazymatch x with
              | context [match _ with _ => _ end] => fail
              | _ => destruct x eqn:?
              end
          end).

(** Histories and event lists, flattened to the right. *)
Ltac tidy_app :=
  cbv beta iota zeta;
  repeat (progress cbn [app] || rewrite <- app_assoc || rewrite app_nil_r).

(** ** The observers distribute over concatenation *)

Lemma api_calls_app (a b : list event) :
  api_calls (a ++ b) = (api_calls a ++ api_calls b)%list.
Proof.
  induction a as [|e a IH]; [reflexivity|].
  destruct e; cbn; rewrite IH; reflexivity.
Qed.

Lemma uploads_app (a b : list event) :
  uploads (a ++ b) = (uploads a ++ uploads b)%list.
Proof.
  induction a as [|e a IH]; [reflexivity|].
  destruct e; cbn; rewrite IH; reflexivity.
Qed.

Lemma written_app (a b : list event) :
  written (a ++ b) = (written a ++ written b)%list.
Proof.
  induction a as [|e a IH]; [reflexivity|].
  destruct e as [| | | |u [x|]]; cbn; rewrite IH; reflexivity.
Qed.

Lemma profile_queries_app (a b : list event) :
  profile_queries (a ++ b) = (profile_queries a ++ profile_queries b)%list.
Proof.
  induction a as [|e a IH]; [reflexivity|].
  destruct e as [| |u [p|] n r| |]; cbn; rewrite ?IH; try reflexivity.
  destruct (String.eqb (p_function p) "ETF_PROFILE"); reflexivity.
Qed.

Lemma dict_has_get (k : string) (d : list (string * value)) :
  dict_has k d = true <-> exists v, dict_get k d = Some v.
Proof.
  induction d as [|[k' v] d IH]; cbn.
  - split; [discriminate | intros [v [=]]].
  - destruct (String.eqb k' k); [|exact IH].
    split; [eauto | reflexivity].
Qed.

Lemma dict_has_get_none (k : string) (d : list (string * value)) :
  dict_has k d = false <-> dict_get k d = None.
Proof.
  induction d as [|[k' v] d IH]; cbn; [tauto|].
  destruct (String.eqb k' k); [|exact IH].
  split; discriminate.
Qed.

(** ** The methods leave their caller's locals alone *)

Section Frames.

Variable rt : runtime.
Variable self : AlphaVantageETFIngest.
Variables (S : Type) (s : S) (h : trace).

Lemma get_etf_profile_frame (symbol : value) :
  get_etf_profile rt self symbol s h =
  match run (get_etf_profile rt self symbol) h with
  | (r, ev) => (r, s, ev)
  end.
Proof. unfold run, get_etf_profile. case_prog; reflexivity. Qed.

Lemma get_etf_holdings_frame (symbol : value) :
  get_etf_holdings rt self symbol s h =
  match run (get_etf_holdings rt self symbol) h with
  | (r, ev) => (r, s, ev)
  end.
Proof. unfold run, get_etf_holdings. case_prog; reflexivity. Qed.

Lemma store_to_gcs_frame (data symbol : value) (data_type : string) :
  store_to_gcs rt self data symbol data_type s h =
  match run (store_to_gcs rt self data symbol data_type) h with
  | (r, ev) => (r, s, ev)
  end.
Proof. unfold run, store_to_gcs. case_prog; reflexivity. Qed.

Lemma AlphaVantageETFIngest_init_frame :
  AlphaVantageETFIngest_init rt s h =
  match run (AlphaVantageETFIngest_init rt) h with
  | (r, ev) => (r, s, ev)
  end.
Proof. unfold run, AlphaVantageETFIngest_init. case_prog; reflexivity. Qed.

End Frames.

(** ** What each method does to the world *)

Section Methods.

Variable rt : runtime.
Variable self : AlphaVantageETFIngest.

Lemma get_etf_profile_events symbol h r ev :
  run (get_etf_profile rt self symbol) h = (r, ev) ->
  api_calls ev = [Some (profile_request self symbol)] /\
  profile_queries ev = [symbol] /\
  uploads ev = [] /\ written ev = [].
Proof.
  unfold run, get_etf_profile. case_prog; intros [= <- <-]; repeat split.
Qed.

Lemma get_etf_holdings_events symbol h r ev :
  run (get_etf_holdings rt self symbol) h = (r, ev) ->
  api_calls ev = [Some (holdings_request self symbol)] /\
  profile_queries ev = [] /\
  uploads ev = [] /\ written ev = [].
Proof.
  unfold run, get_etf_holdings. case_prog; intros [= <- <-]; repeat split.
Qed.

Lemma store_to_gcs_events data symbol data_type h r ev :
  run (store_to_gcs rt self data symbol data_type) h = (r, ev) ->
  let u := upload_of rt self data symbol data_type h in
  api_calls ev = [] /\ profile_queries ev = [] /\
  match r with
  | Ok path =>
      path = location_of u /\ uploads ev = [(u, None)] /\ written ev = [u]
  | Raise e =>
      uploads ev = [(u, Some e)] /\ written ev = []
  end.
Proof.
  unfold run, store_to_gcs, upload_of, after_first_reading, location_of.
  case_prog; intros [= <- <-]; cbn; repeat split.
Qed.

(** A fetch of a well-formed answer is decided by the body alone. *)
Lemma get_etf_profile_classified symbol h resp d :
  profile_response rt self symbol h = GetReturns resp ->
  status_passes resp ->
  resp_json resp = Ok (VDict d) ->
  classified rt d (fst (run (get_etf_profile rt self symbol) h))
             (snd (run (get_etf_profile rt self symbol) h)).
Proof.
  unfold profile_response, profile_request, status_passes, classified.
  intros Hget Hst Hjson.
  unfold run, get_etf_profile. unfold_prog.
  rewrite Hget. unfold_prog. rewrite Hst. unfold_prog. rewrite Hjson.
  unfold_prog. cbn [py_in].
  destruct (dict_get "Error Message" d) as [v|] eqn:He.
  - assert (Hh : dict_has "Error Message" d = true)
      by (apply dict_has_get; eauto).
    rewrite Hh. unfold_prog. cbn [py_getitem]. rewrite He. reflexivity.
  - apply dict_has_get_none in He as Hh. rewrite Hh. unfold_prog.
    destruct (dict_get "Note" d) as [n|] eqn:Hn.
    + assert (Hh' : dict_has "Note" d = true) by (apply dict_has_get; eauto).
      rewrite Hh'. unfold_prog. cbn [py_getitem]. rewrite Hn.
      split; reflexivity.
    + apply dict_has_get_none in Hn as Hh'. rewrite Hh'. split; reflexivity.
Qed.

Lemma get_etf_holdings_classified symbol h resp d :
  holdings_response rt self symbol h = GetReturns resp ->
  status_passes resp ->
  resp_json resp = Ok (VDict d) ->
  classified rt d (fst (run (get_etf_holdings rt self symbol) h))
             (snd (run (get_etf_holdings rt self symbol) h)).
Proof.
  unfold holdings_response, holdings_request, status_passes, classified.
  intros Hget Hst Hjson.
  unfold run, get_etf_holdings. unfold_prog.
  rewrite Hget. unfold_prog. rewrite Hst. unfold_prog. rewrite Hjson.
  unfold_prog. cbn [py_in].
  destruct (dict_get "Error Message" d) as [v|] eqn:He.
  - assert (Hh : dict_has "Error Message" d = true)
      by (apply dict_has_get; eauto).
    rewrite Hh. unfold_prog. cbn [py_getitem]. rewrite He. reflexivity.
  - apply dict_has_get_none in He as Hh. rewrite Hh. unfold_prog.
    destruct (dict_get "Note" d) as [n|] eqn:Hn.
    + assert (Hh' : dict_has "Note" d = true) by (apply dict_has_get; eauto).
      rewrite Hh'. unfold_prog. cbn [py_getitem]. rewrite Hn.
      split; reflexivity.
    + apply dict_has_get_none in Hn as Hh'. rewrite Hh'. split; reflexivity.
Qed.

End Methods.

(** ** One ingestion, step by step *)

(** Facts about the events of the sub-calls whose runs are hypotheses. *)
Ltac events_facts :=
  repeat match goal with
    | H : run (get_etf_profile _ _ _) _ = _ |- _ =>
        apply get_etf_profile_events in H; destruct H as (? & ? & ? & ?)
    | H : run (get_etf_holdings _ _ _) _ = _ |- _ =>
        apply get_etf_holdings_events in H; destruct H as (? & ? & ? & ?)
    | H : run (store_to_gcs _ _ _ _ _) _ = (Ok _, _) |- _ =>
        apply store_to_gcs_events in H; cbv zeta in H;
        destruct H as (? & ? & ? & ? & ?)
    | H : run (store_to_gcs _ _ _ _ _) _ = (Raise _, _) |- _ =>
        apply store_to_gcs_events in H; cbv zeta in H;
        destruct H as (? & ? & ? & ?)
    end.

(** Observing a concatenation of events whose parts are known. *)
Ltac observe :=
  unfold ingest_start, ingest_error_log, ingest_done_log;
  repeat (rewrite ?api_calls_app, ?uploads_app, ?written_app,
            ?profile_queries_app;
          cbn [api_calls uploads written profile_queries app]);
  repeat match goal with
    | H : api_calls _ = _ |- _ => rewrite H; clear H
    | H : uploads _ = _ |- _ => rewrite H; clear H
    | H : written _ = _ |- _ => rewrite H; clear H
    | H : profile_queries _ = _ |- _ => rewrite H; clear H
    end;
  cbn [app].

Section Ingest.

Variable rt : runtime.
Variable self : AlphaVantageETFIngest.
Variable symbol : value.

Lemma ingest_etf_data_eq include_holdings S (s : S) h :
  ingest_etf_data rt self symbol include_holdings s h =
  let o0 := fresh_outcome rt symbol h in
  let pre := ingest_start rt symbol h in
  let oops := ingest_error_log rt symbol in
  match run (get_etf_profile rt self symbol) (h ++ pre)%list with
  | (Raise e, ev1) => (Ok (failed e o0), s, (pre ++ ev1 ++ oops e)%list)
  | (Ok data, ev1) =>
      match run (store_to_gcs rt self data symbol "profile")
                (h ++ pre ++ ev1)%list with
      | (Raise e, ev2) =>
          (Ok (failed e o0), s, (pre ++ ev1 ++ ev2 ++ oops e)%list)
      | (Ok path, ev2) =>
          let o1 := append_file path o0 in
          if include_holdings then
            match run (get_etf_holdings rt self symbol)
                      (h ++ pre ++ ev1 ++ ev2)%list with
            | (Raise e, ev3) =>
                (Ok (failed e o1), s,
                 (pre ++ ev1 ++ ev2 ++ ev3 ++ oops e)%list)
            | (Ok hdata, ev3) =>
                match run (store_to_gcs rt self hdata symbol "holdings")
                          (h ++ pre ++ ev1 ++ ev2 ++ ev3)%list with
                | (Raise e, ev4) =>
                    (Ok (failed e o1), s,
                     (pre ++ ev1 ++ ev2 ++ ev3 ++ ev4 ++ oops e)%list)
                | (Ok path2, ev4) =>
                    (Ok (set_status "success" (append_file path2 o1)), s,
                     (pre ++ ev1 ++ ev2 ++ ev3 ++ ev4 ++
                      ingest_done_log rt symbol)%list)
                end
            end
          else
            (Ok (set_status "success" o1), s,
             (pre ++ ev1 ++ ev2 ++ ingest_done_log rt symbol)%list)
      end
  end.
Proof.
  unfold ingest_etf_data, ingest_steps.
  unfold_prog;
    unfold ingest_start, ingest_error_log, ingest_done_log, fresh_outcome,
      failed.
  rewrite get_etf_profile_frame. tidy_app.
  destruct (run (get_etf_profile rt self symbol) _) as [[data|e] ev1];
    [|tidy_app; reflexivity].
  rewrite store_to_gcs_frame. tidy_app.
  destruct (run (store_to_gcs rt self data symbol "profile") _)
    as [[path|e] ev2]; [|tidy_app; reflexivity].
  destruct include_holdings; [|tidy_app; reflexivity].
  rewrite get_etf_holdings_frame. tidy_app.
  destruct (run (get_etf_holdings rt self symbol) _) as [[hdata|e] ev3];
    [|tidy_app; reflexivity].
  rewrite store_to_gcs_frame. tidy_app.
  destruct (run (store_to_gcs rt self hdata symbol "holdings") _)
    as [[path2|e] ev4]; tidy_app; reflexivity.
Qed.

(** An error message in a 200 body makes the profile fetch raise. *)
Lemma api_error_fetch_fails h resp d v :
  profile_response rt self symbol h = GetReturns resp ->
  status_code resp = 200 ->
  resp_json resp = Ok (VDict d) ->
  dict_get "Error Message" d = Some v ->
  exists ev, run (get_etf_profile rt self symbol) h = (Raise (api_error rt v), ev).
Proof.
  intros Hget Hst Hjson He.
  assert (Hc := get_etf_profile_classified rt self symbol h resp d Hget).
  unfold status_passes, classified in Hc. rewrite Hst, He in Hc.
  specialize (Hc eq_refl Hjson).
  destruct (run (get_etf_profile rt self symbol) h) as [r ev].
  cbn in Hc. subst r. eauto.
Qed.

Lemma ingest_profile_failure include_holdings S (s : S) h e :
  profile_step_fails rt self symbol h e ->
  exists evs,
    ingest_etf_data rt self symbol include_holdings s h =
      (Ok (failed e (fresh_outcome rt symbol h)), s, evs) /\
    written evs = [] /\
    api_calls evs = [Some (profile_request self symbol)] /\
    Forall (fun ur => kind_of (fst ur) = Some (VStr "profile"))
           (uploads evs).
Proof.
  intros Hfail. rewrite ingest_etf_data_eq. cbv zeta.
  assert (Hcases :
    (exists ev1, run (get_etf_profile rt self symbol)
                     (at_profile_fetch rt symbol h) = (Raise e, ev1)) \/
    (exists data ev1 ev2,
        run (get_etf_profile rt self symbol)
            (at_profile_fetch rt symbol h) = (Ok data, ev1) /\
        run (store_to_gcs rt self data symbol "profile")
            (at_profile_fetch rt symbol h ++ ev1)%list = (Raise e, ev2))).
  { destruct Hfail as [ev1 H | resp d v Hget Hst Hjson He -> | data ev1 ev2 H1 H2].
    - left; eauto.
    - left. eapply api_error_fetch_fails; eauto.
    - right; eauto 6. }
  unfold at_profile_fetch in Hcases.
  destruct Hcases as [[ev1 H1] | (data & ev1 & ev2 & H1 & H2)].
  - rewrite H1. eexists; split; [reflexivity|].
    events_facts. observe. repeat split. constructor.
  - rewrite H1. rewrite <- app_assoc in H2. rewrite H2.
    eexists; split; [reflexivity|].
    events_facts. observe. repeat split.
    repeat constructor.
Qed.

Lemma ingest_holdings_failure S (s : S) h path e :
  holdings_step_fails rt self symbol h path e ->
  exists evs u,
    ingest_etf_data rt self symbol true s h =
      (Ok (failed e (append_file path (fresh_outcome rt symbol h))), s, evs) /\
    written evs = [u] /\ path = location_of u /\
    kind_of u = Some (VStr "profile").
Proof.
  intros Hfail. rewrite ingest_etf_data_eq. cbv zeta.
  destruct Hfail as [data ev1 ev2 ev3 H1 H2 H3
                    | data ev1 ev2 hdata ev3 ev4 H1 H2 H3 H4];
    unfold at_profile_fetch in *;
    repeat rewrite <- app_assoc in *;
    rewrite H1, H2, H3; [|rewrite H4];
    do 2 eexists; (split; [reflexivity|]);
    events_facts; observe; repeat split; assumption.
Qed.

End Ingest.

Section IngestClaims.

Variable rt : runtime.
Variable self : AlphaVantageETFIngest.
Variable symbol : value.

(** Whatever the collaborators do, an ingestion returns a record for its
    symbol, asks for the profile once, and lists the objects it wrote. *)
Lemma ingest_etf_data_shape include_holdings S (s : S) h :
  exists o evs,
    ingest_etf_data rt self symbol include_holdings s h = (Ok o, s, evs) /\
    o_symbol o = symbol /\
    profile_queries evs = [symbol] /\
    files_created o = map location_of (written evs) /\
    map kind_of (written evs) =
      firstn (List.length (written evs))
             [Some (VStr "profile"); Some (VStr "holdings")] /\
    ((status o = Some "success" /\ error_message o = None) \/
     (status o = Some "error" /\ exists msg, error_message o = Some msg)).
Proof.
  rewrite ingest_etf_data_eq. cbv zeta.
  destruct (run (get_etf_profile rt self symbol) _) as [[data|e] ev1] eqn:H1.
  2: { do 2 eexists; split; [reflexivity|].
       events_facts. observe. cbn. repeat split; eauto. }
  destruct (run (store_to_gcs rt self data symbol "profile") _)
    as [[path|e] ev2] eqn:H2.
  2: { do 2 eexists; split; [reflexivity|].
       events_facts. observe. cbn. repeat split; eauto. }
  destruct include_holdings.
  2: { do 2 eexists; split; [reflexivity|].
       events_facts. observe. subst. cbn. repeat split; eauto. }
  destruct (run (get_etf_holdings rt self symbol) _) as [[hdata|e] ev3] eqn:H3.
  2: { do 2 eexists; split; [reflexivity|].
       events_facts. observe. subst. cbn. repeat split; eauto. }
  destruct (run (store_to_gcs rt self hdata symbol "holdings") _)
    as [[path2|e] ev4] eqn:H4;
    (do 2 eexists; split; [reflexivity|]);
    events_facts; observe; subst; cbn; repeat split; eauto.
Qed.

(** C9: for every symbol and flag, and whatever the fetch and write
    collaborators do, [ingest_etf_data] returns a record whose ['symbol']
    is the input symbol, whose ['status'] is exactly ['success'] or
    ['error'], whose ['files_created'] has at most two locations, the
    profile's before the holdings', and which has an ['error_message']
    exactly when the status is ['error']. *)
Theorem ingest_etf_data_record_invariant include_holdings S (s : S) h :
  exists o evs,
    ingest_etf_data rt self symbol include_holdings s h = (Ok o, s, evs) /\
    o_symbol o = symbol /\
    (status o = Some "success" \/ status o = Some "error") /\
    List.length (files_created o) <= 2 /\
    (exists n ts1 dp1 ts2 dp2,
        files_created o =
          firstn n
            ["gs://" ++ bucket_name self ++ "/" ++
               blob_name_of rt symbol "profile" ts1 dp1;
             "gs://" ++ bucket_name self ++ "/" ++
               blob_name_of rt symbol "holdings" ts2 dp2]) /\
    (error_message o <> None <-> status o = Some "error").
Proof.
  rewrite ingest_etf_data_eq. cbv zeta.
  assert (Hloc : forall data kind h' path ev,
             run (store_to_gcs rt self data symbol kind) h' = (Ok path, ev) ->
             exists ts dp,
               path = "gs://" ++ bucket_name self ++ "/" ++
                      blob_name_of rt symbol kind ts dp).
  { intros data kind h' path ev H. apply store_to_gcs_events in H.
    cbv zeta in H. destruct H as (_ & _ & -> & _). do 2 eexists. reflexivity. }
  destruct (run (get_etf_profile rt self symbol) _) as [[data|e] ev1].
  2: { do 2 eexists; split; [reflexivity|]. cbn.
       repeat split; eauto; try discriminate.
       exists 0, "", "", "", "". reflexivity. }
  destruct (run (store_to_gcs rt self data symbol "profile") _)
    as [[path|e] ev2] eqn:H2.
  2: { do 2 eexists; split; [reflexivity|]. cbn.
       repeat split; eauto; try discriminate.
       exists 0, "", "", "", "". reflexivity. }
  destruct (Hloc _ _ _ _ _ H2) as (ts1 & dp1 & ->).
  destruct include_holdings.
  2: { do 2 eexists; split; [reflexivity|]. cbn.
       repeat split; eauto; try discriminate; try congruence.
       exists 1, ts1, dp1, "", "". reflexivity. }
  destruct (run (get_etf_holdings rt self symbol) _) as [[hdata|e] ev3].
  2: { do 2 eexists; split; [reflexivity|]. cbn.
       repeat split; eauto; try discriminate.
       exists 1, ts1, dp1, "", "". reflexivity. }
  destruct (run (store_to_gcs rt self hdata symbol "holdings") _)
    as [[path2|e] ev4] eqn:H4.
  - destruct (Hloc _ _ _ _ _ H4) as (ts2 & dp2 & ->).
    do 2 eexists; split; [reflexivity|]. cbn.
    repeat split; eauto; try discriminate; try congruence.
    exists 2, ts1, dp1, ts2, dp2. reflexivity.
  - do 2 eexists; split; [reflexivity|]. cbn.
    repeat split; eauto; try discriminate.
    exists 1, ts1, dp1, "", "". reflexivity.
Qed.

(** C3: if the profile fetch fails (also when the upstream reports an
    error inside a 200 body) or the profile write fails, the outcome has
    status ['error'] and no location, nothing is written for the symbol,
    and neither the holdings query nor a holdings upload is attempted. *)
Theorem profile_failure_halts include_holdings S (s : S) h e :
  profile_step_fails rt self symbol h e ->
  exists o evs,
    ingest_etf_data rt self symbol include_holdings s h = (Ok o, s, evs) /\
    status o = Some "error" /\
    error_message o = Some (exn_str e) /\
    files_created o = [] /\
    written evs = [] /\
    api_calls evs = [Some (profile_request self symbol)] /\
    Forall (fun ur => kind_of (fst ur) = Some (VStr "profile")) (uploads evs).
Proof.
  intros Hfail.
  destruct (ingest_profile_failure rt self symbol include_holdings S s h e Hfail)
    as (evs & Hrun & Hw & Hc & Hu).
  exists (failed e (fresh_outcome rt symbol h)), evs.
  repeat split; assumption.
Qed.

(** C4: if the profile is fetched and written, holdings are asked for, and
    the holdings fetch or write fails, the outcome has status ['error'] and
    its ['files_created'] is exactly the location of the profile that was
    written. *)
Theorem holdings_failure_keeps_profile S (s : S) h path e :
  holdings_step_fails rt self symbol h path e ->
  exists o evs u,
    ingest_etf_data rt self symbol true s h = (Ok o, s, evs) /\
    status o = Some "error" /\
    error_message o = Some (exn_str e) /\
    files_created o = [path] /\
    written evs = [u] /\ path = location_of u /\
    kind_of u = Some (VStr "profile").
Proof.
  intros Hfail.
  destruct (ingest_holdings_failure rt self symbol S s h path e Hfail)
    as (evs & u & Hrun & Hw & Hp & Hk).
  exists (failed e (append_file path (fresh_outcome rt symbol h))), evs, u.
  repeat split; assumption.
Qed.

(** C6: without holdings, an ingestion sends exactly one upstream query,
    the profile query; when that fetch and its write succeed it writes
    exactly one object and returns status ['success'] with exactly that
    one location. *)
Theorem ingest_profile_only S (s : S) h :
  exists o evs,
    ingest_etf_data rt self symbol false s h = (Ok o, s, evs) /\
    api_calls evs = [Some (profile_request self symbol)] /\
    (forall path,
        profile_step_succeeds rt self symbol h path ->
        status o = Some "success" /\
        files_created o = [path] /\
        exists u, uploads evs = [(u, None)] /\ written evs = [u] /\
                  path = location_of u).
Proof.
  rewrite ingest_etf_data_eq. cbv zeta.
  unfold profile_step_succeeds, at_profile_fetch.
  destruct (run (get_etf_profile rt self symbol) _) as [[data|e] ev1] eqn:H1.
  2: { do 2 eexists; split; [reflexivity|]. split.
       - events_facts. observe. reflexivity.
       - intros path (data & ev1' & ev2' & [=] & _). }
  destruct (run (store_to_gcs rt self data symbol "profile") _)
    as [[path|e] ev2] eqn:H2.
  - do 2 eexists; split; [reflexivity|]. split.
    + events_facts. observe. reflexivity.
    + intros path' (data' & ev1' & ev2' & [= <- <-] & H2').
      rewrite <- app_assoc in H2'. rewrite H2 in H2'.
      injection H2' as <- <-.
      events_facts. observe. subst. cbn. repeat split. eauto.
  - do 2 eexists; split; [reflexivity|]. split.
    + events_facts. observe. reflexivity.
    + intros path' (data' & ev1' & ev2' & [= <- <-] & H2').
      rewrite <- app_assoc in H2'. rewrite H2 in H2'. discriminate.
Qed.

(** Every failure of a fetch or write step is caught and returned as an
    outcome with status ['error'] and the failure's message;
    [ingest_etf_data] itself never raises. *)
Lemma ingest_catches include_holdings S (s : S) h :
  (exists o evs,
      ingest_etf_data rt self symbol include_holdings s h = (Ok o, s, evs)) /\
  (forall e,
      step_fails rt self symbol include_holdings h e ->
      exists o evs,
        ingest_etf_data rt self symbol include_holdings s h = (Ok o, s, evs) /\
        status o = Some "error" /\ error_message o = Some (exn_str e)).
Proof.
  split.
  - destruct (ingest_etf_data_shape include_holdings S s h)
      as (o & evs & H & _). eauto.
  - intros e [Hp | [-> [path Hh]]].
    + destruct (ingest_profile_failure rt self symbol include_holdings S s h e Hp)
        as (evs & Hrun & _).
      do 2 eexists; split; [exact Hrun|]. split; reflexivity.
    + destruct (ingest_holdings_failure rt self symbol S s h path e Hh)
        as (evs & u & Hrun & _).
      do 2 eexists; split; [exact Hrun|]. split; reflexivity.
Qed.

End IngestClaims.

(** ** The scheduled batch *)

Section Batch.

Variable rt : runtime.

Lemma AlphaVantageETFIngest_init_events h r ev :
  run (AlphaVantageETFIngest_init rt) h = (r, ev) ->
  api_calls ev = [] /\ profile_queries ev = [] /\ uploads ev = [].
Proof.
  unfold run, AlphaVantageETFIngest_init. case_prog; intros [= <- <-];
    repeat split.
Qed.

(** The loop never stops early: it adds one outcome per symbol, in order,
    and asks for each symbol's profile once, in order. *)
Lemma batch_loop ingest include_holdings symbols :
  forall results h,
  exists outcomes evs,
    for_each symbols (batch_body rt ingest include_holdings) results h =
      (Ok tt, (results ++ outcomes)%list, evs) /\
    map o_symbol outcomes = symbols /\
    profile_queries evs = symbols /\
    Forall settled outcomes.
Proof.
  induction symbols as [|symbol rest IH]; intros results h.
  - exists [], []. cbn. rewrite app_nil_r. repeat split. constructor.
  - cbn [for_each]. unfold batch_body at 1. unfold_prog. tidy_app.
    match goal with
    | |- context [ingest_etf_data rt ingest symbol ?b results ?h'] =>
        destruct (ingest_etf_data_shape rt ingest symbol b _ results h')
        as (o & ev & Hrun & Hsym & Hq & _ & _ & Hst)
    end.
    rewrite Hrun. tidy_app.
    match goal with
    | |- context [for_each rest _ ?results' ?h'] =>
        destruct (IH results' h') as (outcomes & evs & Hloop & Hmap & Hqs & Hall)
    end.
    rewrite Hloop. tidy_app.
    do 2 eexists. split; [reflexivity|]. repeat split.
    + cbn. congruence.
    + cbn [profile_queries]. rewrite profile_queries_app, Hq, Hqs. reflexivity.
    + constructor; assumption.
Qed.

(** The scheduled entry point, with its loop body named. *)
Lemma etf_data_ingest_scheduled_eq (ev : cloud_event) :
  etf_data_ingest_scheduled rt ev =
  try_except
    (let symbols := match ce_symbols ev with Some l => l | None => [] end in
     let include_holdings := default_to (VBool true) (ce_include_holdings ev) in
     if negb (truthy (VList symbols)) then
       log ERROR "未提供 ETF 符号列表" ;;; ret None
     else
       ingest <- AlphaVantageETFIngest_init rt ;;
       call []
         (for_each symbols (batch_body rt ingest include_holdings) ;;;
          log INFO ("定时任务完成，处理了 " ++
                    fmt rt (VInt (Z.of_nat (List.length symbols))) ++ " 个 ETF") ;;;
          results <- get_local ;;
          ret (Some results)))
    (fun e =>
       log ERROR ("定时 Cloud Function 执行失败: " ++ exn_str e) ;;; raise e).
Proof. reflexivity. Qed.

Lemma scheduled_run symbols flag h self ev0 :
  symbols <> [] ->
  run (AlphaVantageETFIngest_init rt) h = (Ok self, ev0) ->
  exists results evs,
    run (etf_data_ingest_scheduled rt (mkCloudEvent (Some symbols) flag)) h =
      (Ok (Some results), evs) /\
    map o_symbol results = symbols /\
    profile_queries evs = symbols /\
    Forall settled results.
Proof.
  intros Hne Hinit.
  assert (Ht : truthy (VList symbols) = true)
    by (destruct symbols; [congruence | reflexivity]).
  rewrite etf_data_ingest_scheduled_eq. unfold run. unfold_prog.
  cbn [ce_symbols ce_include_holdings].
  rewrite Ht. cbn [negb]. unfold_prog.
  rewrite AlphaVantageETFIngest_init_frame, Hinit. tidy_app.
  match goal with
  | |- context [for_each symbols (batch_body rt self ?v) ?r ?h'] =>
      destruct (batch_loop self v symbols r h')
      as (outcomes & evs & Hloop & Hmap & Hqs & Hall)
  end.
  rewrite Hloop. tidy_app.
  do 2 eexists. split; [reflexivity|].
  apply AlphaVantageETFIngest_init_events in Hinit.
  destruct Hinit as (_ & Hq0 & _).
  repeat split; try assumption.
  rewrite !profile_queries_app, Hq0, Hqs. cbn. apply app_nil_r.
Qed.

End Batch.

Section BatchClaims.

Variable rt : runtime.

(** C1, as amended: for every non-empty list of symbols and every flag,
    once the ingest object is constructed, the scheduled run ingests each
    symbol once, in input order, and returns as many outcomes as the list
    has entries, the i-th for the i-th symbol, whichever symbols fail; that
    number is the number of distinct symbols when no symbol is repeated. *)
Theorem scheduled_one_outcome_per_entry symbols flag h self ev0 :
  symbols <> [] ->
  run (AlphaVantageETFIngest_init rt) h = (Ok self, ev0) ->
  exists results evs,
    run (etf_data_ingest_scheduled rt (mkCloudEvent (Some symbols) flag)) h =
      (Ok (Some results), evs) /\
    List.length results = List.length symbols /\
    (forall i sym, nth_error symbols i = Some sym ->
                   exists o, nth_error results i = Some o /\ o_symbol o = sym) /\
    profile_queries evs = symbols /\
    (forall names, symbols = map VStr names -> NoDup names ->
                   List.length results = distinct_count names).
Proof.
  intros Hne Hinit.
  destruct (scheduled_run rt symbols flag h self ev0 Hne Hinit)
    as (results & evs & Hrun & Hmap & Hq & _).
  exists results, evs.
  assert (Hlen : List.length results = List.length symbols)
    by (rewrite <- Hmap; symmetry; apply length_map).
  repeat split; try assumption.
  - intros i sym Hi. rewrite <- Hmap in Hi.
    rewrite nth_error_map in Hi.
    destruct (nth_error results i) as [o|]; [|discriminate].
    injection Hi as Hi. eauto.
  - intros names -> Hnd. unfold distinct_count.
    rewrite (nodup_fixed_point string_dec Hnd), Hlen. apply length_map.
Qed.

(** C2: every failure raised during a symbol's fetch or write steps is
    caught inside [ingest_etf_data] and returned as an outcome with status
    ['error'] and the failure's message; [ingest_etf_data] never raises, so
    in a batch a symbol that fails does not keep the symbols after it from
    being ingested. *)
Theorem failures_stay_with_their_symbol
        self symbol include_holdings S (s : S) h :
  (exists o evs,
      ingest_etf_data rt self symbol include_holdings s h = (Ok o, s, evs)) /\
  (forall e,
      step_fails rt self symbol include_holdings h e ->
      exists o evs,
        ingest_etf_data rt self symbol include_holdings s h = (Ok o, s, evs) /\
        status o = Some "error" /\ error_message o = Some (exn_str e)) /\
  (forall symbols flag h0 ev0,
      symbols <> [] ->
      run (AlphaVantageETFIngest_init rt) h0 = (Ok self, ev0) ->
      exists results evs,
        run (etf_data_ingest_scheduled rt (mkCloudEvent (Some symbols) flag)) h0 =
          (Ok (Some results), evs) /\
        Forall settled results /\
        profile_queries evs = symbols /\
        forall i o, nth_error results i = Some o -> status o = Some "error" ->
          forall j sym, i < j -> nth_error symbols j = Some sym ->
            exists o', nth_error results j = Some o' /\ o_symbol o' = sym).
Proof.
  destruct (ingest_catches rt self symbol include_holdings S s h) as [Ht Hc].
  repeat split; [exact Ht | exact Hc |].
  intros symbols flag h0 ev0 Hne Hinit.
  destruct (scheduled_run rt symbols flag h0 self ev0 Hne Hinit)
    as (results & evs & Hrun & Hmap & Hq & Hall).
  exists results, evs. repeat split; try assumption.
  intros i o _ _ j sym _ Hj. rewrite <- Hmap in Hj.
  rewrite nth_error_map in Hj.
  destruct (nth_error results j) as [o'|]; [|discriminate].
  injection Hj as Hj. eauto.
Qed.

End BatchClaims.

(** ** Fetching *)

Section FetchClaims.

Variable rt : runtime.
Variable self : AlphaVantageETFIngest.

Lemma classified_api_error d r ev :
  classified rt d r ev ->
  (is_api_error rt r <-> dict_has "Error Message" d = true) /\
  (dict_has "Error Message" d = false ->
   dict_has "Note" d = true ->
   r = Ok (VDict d) /\
   exists note, dict_get "Note" d = Some note /\
                filter is_warning ev = [note_warning rt note]).
Proof.
  unfold classified, is_api_error. intros Hc.
  destruct (dict_get "Error Message" d) as [v|] eqn:He.
  - assert (Hh : dict_has "Error Message" d = true)
      by (apply dict_has_get; eauto).
    split; [split; eauto | congruence].
  - apply dict_has_get_none in He as Hh. destruct Hc as [-> Hn].
    split.
    + split; [intros [v [=]] | congruence].
    + intros _ Hnote. apply dict_has_get in Hnote as [note Hnote].
      rewrite Hnote in Hn. eauto.
Qed.

(** C5: for every symbol and every upstream answer that passes the status
    check and decodes to a JSON object, [get_etf_profile] and
    [get_etf_holdings] fail with the API error exactly when the body has an
    ['Error Message'] field; a body with a ['Note'] and no error message is
    returned as the payload, with the note logged as a warning. *)
Theorem fetch_fails_iff_error_message symbol h resp d :
  status_passes resp ->
  resp_json resp = Ok (VDict d) ->
  (profile_response rt self symbol h = GetReturns resp ->
   forall r ev, run (get_etf_profile rt self symbol) h = (r, ev) ->
     (is_api_error rt r <-> dict_has "Error Message" d = true) /\
     (dict_has "Error Message" d = false -> r = Ok (VDict d)) /\
     (dict_has "Error Message" d = false -> dict_has "Note" d = true ->
      exists note, dict_get "Note" d = Some note /\
                   filter is_warning ev = [note_warning rt note])) /\
  (holdings_response rt self symbol h = GetReturns resp ->
   forall r ev, run (get_etf_holdings rt self symbol) h = (r, ev) ->
     (is_api_error rt r <-> dict_has "Error Message" d = true) /\
     (dict_has "Error Message" d = false -> r = Ok (VDict d)) /\
     (dict_has "Error Message" d = false -> dict_has "Note" d = true ->
      exists note, dict_get "Note" d = Some note /\
                   filter is_warning ev = [note_warning rt note])).
Proof.
  intros Hst Hjson. split; intros Hget r ev Hrun.
  - assert (Hc := get_etf_profile_classified rt self symbol h resp d
                    Hget Hst Hjson).
    rewrite Hrun in Hc. cbn [fst snd] in Hc.
    destruct (classified_api_error d r ev Hc) as [Hiff Hnote].
    repeat split; try apply Hiff.
    + intros Hno. unfold classified in Hc.
      apply dict_has_get_none in Hno. rewrite Hno in Hc. apply Hc.
    + intros Hno Hn. apply (Hnote Hno Hn).
  - assert (Hc := get_etf_holdings_classified rt self symbol h resp d
                    Hget Hst Hjson).
    rewrite Hrun in Hc. cbn [fst snd] in Hc.
    destruct (classified_api_error d r ev Hc) as [Hiff Hnote].
    repeat split; try apply Hiff.
    + intros Hno. unfold classified in Hc.
      apply dict_has_get_none in Hno. rewrite Hno in Hc. apply Hc.
    + intros Hno Hn. apply (Hnote Hno Hn).
Qed.

End FetchClaims.

(** ** Storage keys *)

Lemma string_app_assoc (a b c : string) : (a ++ b) ++ c = a ++ b ++ c.
Proof. induction a as [|x a IH]; cbn; [reflexivity | now rewrite IH]. Qed.

Lemma string_app_cancel (p a b : string) : p ++ a = p ++ b -> a = b.
Proof.
  induction p as [|x p IH]; cbn; intros H; [exact H|].
  injection H as H. exact (IH H).
Qed.

(** Two concatenations that agree split alike when their heads are equally
    long. *)
Lemma string_app_split (a b x y : string) :
  String.length a = String.length b -> a ++ x = b ++ y -> a = b /\ x = y.
Proof.
  revert b. induction a as [|c a IH]; intros [|c' b] Hlen H; cbn in *;
    try discriminate.
  - split; [reflexivity | exact H].
  - injection H as -> H. injection Hlen as Hlen.
    destruct (IH b Hlen H) as [-> ->]. split; reflexivity.
Qed.

Lemma pad_length (w : nat) : forall n, String.length (pad w n) = w.
Proof.
  induction w as [|w IH]; intros n; cbn [pad]; [reflexivity|].
  assert (Happ : forall a b, String.length (a ++ b)
                             = String.length a + String.length b).
  { intros a b. induction a as [|c a IHa]; cbn; [reflexivity | now rewrite IHa]. }
  rewrite Happ, IH. cbn. lia.
Qed.

Lemma digit_inj (a b : N) : digit a = digit b -> (a mod 10 = b mod 10)%N.
Proof.
  unfold digit. intros H.
  assert (Ha : (a mod 10 < 10)%N) by (apply N.mod_lt; discriminate).
  assert (Hb : (b mod 10 < 10)%N) by (apply N.mod_lt; discriminate).
  apply (f_equal N_of_ascii) in H.
  rewrite !N_ascii_embedding in H by lia. lia.
Qed.

(** Padding to [w] digits loses nothing below [10 ^ w]. *)
Lemma pad_inj (w : nat) : forall a b : N,
  (a < 10 ^ N.of_nat w)%N -> (b < 10 ^ N.of_nat w)%N ->
  pad w a = pad w b -> a = b.
Proof.
  induction w as [|w IH]; intros a b Ha Hb H.
  - cbn in Ha, Hb. lia.
  - rewrite Nat2N.inj_succ, N.pow_succ_r' in Ha, Hb.
    cbn [pad] in H.
    apply string_app_split in H; [|now rewrite !pad_length].
    destruct H as [Hhigh Hlow]. injection Hlow as Hlow.
    apply digit_inj in Hlow.
    assert (Hq : (a / 10 = b / 10)%N).
    { apply IH; [| |exact Hhigh];
        apply N.Div0.div_lt_upper_bound; lia. }
    rewrite (N.div_mod' a 10), (N.div_mod' b 10). congruence.
Qed.

Lemma wf_datetime_in_range (t : datetime) :
  wf_datetime t -> in_range (seconds_of t).
Proof. unfold wf_datetime, in_range, seconds_of. lia. Qed.

Lemma storage_key_inj symbol kind sec1 sec2 :
  in_range sec1 -> in_range sec2 ->
  storage_key symbol kind sec1 = storage_key symbol kind sec2 ->
  sec1 = sec2.
Proof.
  destruct sec1 as [[[[[y1 mo1] d1] hh1] mi1] ss1].
  destruct sec2 as [[[[[y2 mo2] d2] hh2] mi2] ss2].
  unfold in_range, storage_key. intros R1 R2 H.
  assert (P4 : forall a b x z, (a < 10000)%N -> (b < 10000)%N ->
             pad 4 a ++ x = pad 4 b ++ z -> a = b /\ x = z).
  { intros a b x z Ha Hb E.
    apply string_app_split in E; [|now rewrite !pad_length].
    destruct E as [E ->]. split; [|reflexivity].
    apply (pad_inj 4); assumption. }
  assert (P2 : forall a b x z, (a < 100)%N -> (b < 100)%N ->
             pad 2 a ++ x = pad 2 b ++ z -> a = b /\ x = z).
  { intros a b x z Ha Hb E.
    apply string_app_split in E; [|now rewrite !pad_length].
    destruct E as [E ->]. split; [|reflexivity].
    apply (pad_inj 2); assumption. }
  do 5 apply string_app_cancel in H.
  apply P4 in H; [|lia..]. destruct H as [-> H].
  apply string_app_cancel in H.
  apply P2 in H; [|lia..]. destruct H as [-> H].
  apply string_app_cancel in H.
  apply P2 in H; [|lia..]. destruct H as [-> H].
  do 9 apply string_app_cancel in H.
  apply P2 in H; [|lia..]. destruct H as [-> H].
  apply P2 in H; [|lia..]. destruct H as [-> H].
  apply P2 in H; [|lia..]. destruct H as [-> H].
  reflexivity.
Qed.

Section StorageClaims.

Variable rt : runtime.
Variable self : AlphaVantageETFIngest.

Lemma blob_name_is_storage_key symbol data_type t :
  blob_name_of rt symbol data_type (strftime_stamp t) (strftime_date_path t) =
  storage_key (fmt rt symbol) data_type (seconds_of t).
Proof.
  unfold blob_name_of, strftime_stamp, strftime_date_path, storage_key,
    seconds_of.
  rewrite !string_app_assoc. reflexivity.
Qed.

(** C7: for every symbol, kind and reading [t] of the clock that both of
    [store_to_gcs]'s readings give, the object path it uploads to is the
    storage key of the symbol, the kind and [t] cut to the second, that is
    [etf_data/<kind>/<symbol>/<YYYY/MM/DD>/<symbol>_<kind>_<YYYYMMDD_HHMMSS>.json];
    for one symbol and kind, readings that differ in their seconds give
    different keys. *)
Theorem store_to_gcs_key data symbol data_type h t :
  clock rt h = t ->
  clock rt (after_first_reading rt h) = t ->
  (exists r ev u res,
      run (store_to_gcs rt self data symbol data_type) h = (r, ev) /\
      uploads ev = [(u, res)] /\
      up_blob_name u = storage_key (fmt rt symbol) data_type (seconds_of t) /\
      (forall path, r = Ok path ->
                    path = "gs://" ++ bucket_name self ++ "/" ++
                           storage_key (fmt rt symbol) data_type (seconds_of t))) /\
  storage_key (fmt rt symbol) data_type (seconds_of t) =
    "etf_data/" ++ data_type ++ "/" ++ fmt rt symbol ++ "/" ++
    pad 4 (year t) ++ "/" ++ pad 2 (month t) ++ "/" ++ pad 2 (day t) ++ "/" ++
    fmt rt symbol ++ "_" ++ data_type ++ "_" ++
    pad 4 (year t) ++ pad 2 (month t) ++ pad 2 (day t) ++ "_" ++
    pad 2 (hour t) ++ pad 2 (minute t) ++ pad 2 (second t) ++ ".json" /\
  (forall t',
      wf_datetime t -> wf_datetime t' ->
      seconds_of t <> seconds_of t' ->
      storage_key (fmt rt symbol) data_type (seconds_of t) <>
      storage_key (fmt rt symbol) data_type (seconds_of t')).
Proof.
  intros H1 H2. split; [|split].
  - destruct (run (store_to_gcs rt self data symbol data_type) h)
      as [r ev] eqn:Hrun.
    apply store_to_gcs_events in Hrun. cbv zeta in Hrun.
    destruct Hrun as (_ & _ & Hr).
    assert (Hname : up_blob_name (upload_of rt self data symbol data_type h) =
                    storage_key (fmt rt symbol) data_type (seconds_of t)).
    { unfold upload_of. cbn [up_blob_name]. rewrite H1, H2.
      apply blob_name_is_storage_key. }
    destruct r as [path|e].
    + destruct Hr as (Hp & Hu & _).
      do 4 eexists. split; [reflexivity|]. split; [exact Hu|].
      split; [exact Hname|].
      intros path' [= <-]. rewrite Hp. unfold location_of.
      rewrite Hname. reflexivity.
    + destruct Hr as (Hu & _).
      do 4 eexists. split; [reflexivity|]. split; [exact Hu|].
      split; [exact Hname|]. intros path' [=].
  - reflexivity.
  - intros t' Hwf Hwf' Hne Hkey. apply Hne.
    apply (storage_key_inj (fmt rt symbol) data_type);
      auto using wf_datetime_in_range.
Qed.

End StorageClaims.

(** ** The HTTP entry points *)

Section HttpClaims.

Variable rt : runtime.

Lemma http_code_success (o : outcome) :
  (status o = Some "success" -> http_code o = 200) /\
  (status o <> Some "success" -> http_code o = 500).
Proof.
  unfold http_code. destruct (status o) as [st|]; [|split; congruence].
  destruct (String.eqb_spec st "success") as [->|Hne];
    split; congruence.
Qed.

Lemma py_get_dict k default d :
  py_get k default (VDict d) = Ok (default_to default (dict_get k d)).
Proof. cbn. destruct (dict_get k d); reflexivity. Qed.

(** C8, as amended: a request whose method is not POST is answered 405; a
    POST whose body is missing, is not JSON or is a false value, or is a
    JSON object without a true ['symbol'], is answered 400; in all these
    cases nothing at all is done, so no upstream query and no write.  A
    POST whose body is a JSON object with a true ['symbol'] is answered,
    when the ingest object can be constructed, with the outcome of
    ingesting that symbol, and with 200 exactly when the outcome's status
    is ['success'] and 500 otherwise; when the ingest object cannot be
    constructed it is answered 500 with an error record, without an
    upstream query or a write. *)
Theorem etf_data_ingest_answers (req : request) (h : trace) :
  (method req <> "POST" ->
   run (etf_data_ingest rt req) h = (Ok (BodyError "只支持 POST 请求", 405), [])) /\
  (method req = "POST" ->
   (get_json req = None \/
    exists v, get_json req = Some v /\ truthy v = false) ->
   run (etf_data_ingest rt req) h =
     (Ok (BodyError "请求体必须是有效的 JSON", 400), [])) /\
  (forall d,
      method req = "POST" ->
      get_json req = Some (VDict d) -> d <> [] ->
      truthy (default_to VNone (dict_get "symbol" d)) = false ->
      run (etf_data_ingest rt req) h =
        (Ok (BodyError "参数 symbol 是必需的", 400), [])) /\
  (forall d symbol self ev0,
      method req = "POST" ->
      get_json req = Some (VDict d) ->
      dict_get "symbol" d = Some symbol -> truthy symbol = true ->
      run (AlphaVantageETFIngest_init rt) h = (Ok self, ev0) ->
      exists o ev,
        run (ingest_etf_data rt self symbol
               (truthy (default_to (VBool true) (dict_get "include_holdings" d))))
            (h ++ ev0)%list = (Ok o, ev) /\
        run (etf_data_ingest rt req) h =
          (Ok (BodyOutcome o, http_code o), (ev0 ++ ev)%list) /\
        (status o = Some "success" -> http_code o = 200) /\
        (status o <> Some "success" -> http_code o = 500)) /\
  (forall d symbol e ev0,
      method req = "POST" ->
      get_json req = Some (VDict d) ->
      dict_get "symbol" d = Some symbol -> truthy symbol = true ->
      run (AlphaVantageETFIngest_init rt) h = (Raise e, ev0) ->
      exists ts evs,
        run (etf_data_ingest rt req) h =
          (Ok (BodyFailure "error" (exn_str e) ts, 500), evs) /\
        api_calls evs = [] /\ uploads evs = []).
Proof.
  repeat split.
  - intros Hm. apply String.eqb_neq in Hm.
    unfold run, etf_data_ingest. unfold_prog. rewrite Hm. reflexivity.
  - intros Hm Hbody. unfold run, etf_data_ingest. unfold_prog.
    rewrite Hm. cbn [String.eqb Ascii.eqb Bool.eqb negb].
    destruct Hbody as [-> | (v & -> & ->)]; reflexivity.
  - intros d Hm Hjson Hd Hsym. unfold run, etf_data_ingest. unfold_prog.
    rewrite Hm, Hjson. cbn [String.eqb Ascii.eqb Bool.eqb negb].
    destruct d as [|kv d]; [congruence|]. cbn [truthy negb].
    rewrite py_get_dict. unfold_prog. rewrite Hsym. reflexivity.
  - intros d symbol self ev0 Hm Hjson Hsym Htrue Hinit.
    destruct (ingest_etf_data_shape rt self symbol
                (truthy (default_to (VBool true) (dict_get "include_holdings" d)))
                unit tt (h ++ ev0)%list)
      as (o & ev & Hrun & _ & _ & _ & _ & Hst).
    exists o, ev.
    split; [unfold run; rewrite Hrun; reflexivity|].
    split; [|apply http_code_success].
    unfold run, etf_data_ingest. unfold_prog.
    rewrite Hm, Hjson. cbn [String.eqb Ascii.eqb Bool.eqb negb].
    destruct d as [|kv d]; [discriminate|]. cbn [truthy negb].
    rewrite !py_get_dict. unfold_prog. rewrite Hsym. cbn [default_to].
    rewrite Htrue. cbn [negb].
    rewrite AlphaVantageETFIngest_init_frame. tidy_app. rewrite Hinit.
    tidy_app.
    rewrite Hrun. unfold outcome_getitem_status, http_code.
    destruct Hst as [[-> _] | [-> _]]; tidy_app; reflexivity.
  - intros d symbol e ev0 Hm Hjson Hsym Htrue Hinit.
    unfold run, etf_data_ingest. unfold_prog.
    rewrite Hm, Hjson. cbn [String.eqb Ascii.eqb Bool.eqb negb].
    destruct d as [|kv d]; [discriminate|]. cbn [truthy negb].
    rewrite !py_get_dict. unfold_prog. rewrite Hsym. cbn [default_to].
    rewrite Htrue. cbn [negb].
    rewrite AlphaVantageETFIngest_init_frame. tidy_app. rewrite Hinit.
    tidy_app.
    do 2 eexists. split; [reflexivity|].
    apply AlphaVantageETFIngest_init_events in Hinit.
    destruct Hinit as (Ha & _ & Hu).
    rewrite api_calls_app, uploads_app, Ha, Hu. split; reflexivity.
Qed.

(** A true JSON value that is not an object has no [get]: the handler's
    last [except] answers 500, and nothing is fetched or written. *)
Lemma etf_data_ingest_not_an_object (req : request) (h : trace) v :
  method req = "POST" ->
  get_json req = Some v -> truthy v = true ->
  (forall d, v <> VDict d) ->
  exists msg ts evs,
    run (etf_data_ingest rt req) h =
      (Ok (BodyFailure "error" msg ts, 500), evs) /\
    api_calls evs = [] /\ uploads evs = [].
Proof.
  intros Hm Hjson Htrue Hnd. unfold run, etf_data_ingest. unfold_prog.
  rewrite Hm, Hjson, Htrue. cbn [String.eqb Ascii.eqb Bool.eqb negb].
  destruct v; try discriminate; try (exfalso; eapply Hnd; reflexivity);
    cbn [py_get]; do 3 eexists; (split; [reflexivity|]); split; reflexivity.
Qed.

End HttpClaims.

Section HelloHttp.

Variable rt : runtime.

(** C10: for every request, [hello_http] raises [NameError] for the name
    [requests], which its module never imports, before it performs
    anything; so it never returns the fetched data. *)
Theorem hello_http_raises_name_error (req : request) (h : trace) :
  run (FirstCloudFunction.hello_http rt req) h =
    (Raise (mkExn CNameError "name 'requests' is not defined"), []) /\
  (forall data evs,
      run (FirstCloudFunction.hello_http rt req) h <> (Ok data, evs)).
Proof.
  assert (H : run (FirstCloudFunction.hello_http rt req) h =
              (Raise (mkExn CNameError "name 'requests' is not defined"), []))
    by reflexivity.
  split; [exact H|]. intros data evs. rewrite H. discriminate.
Qed.

End HelloHttp.

(** * More about the code *)

(** ** Fetching: what goes out, and what comes back *)

Section FetchMore.

Variable rt : runtime.
Variable self : AlphaVantageETFIngest.

(** Each fetch is one attempt: a single GET to the base URL with the
    function name, the symbol and the key of [self], and a timeout of 30
    seconds, whatever the upstream answers; it reads no clock, creates no
    client and uploads nothing. *)
Theorem fetch_is_one_get symbol h :
  let profile := snd (run (get_etf_profile rt self symbol) h) in
  let holdings := snd (run (get_etf_holdings rt self symbol) h) in
  gets profile =
    [(base_url self, Some (mkParams "ETF_PROFILE" symbol (api_key self)), 30)] /\
  gets holdings =
    [(base_url self, Some (mkParams "ETF_HOLDINGS" symbol (api_key self)), 30)] /\
  clock_reads profile = [] /\ clock_reads holdings = [] /\
  clients profile = [] /\ clients holdings = [] /\
  uploads profile = [] /\ uploads holdings = [].
Proof.
  cbv zeta. unfold run, get_etf_profile, get_etf_holdings.
  repeat split; case_prog; reflexivity.
Qed.

(** A failure of the request, of the status check or of the decoding is
    raised again as it is, by both fetches, with the error line of its
    kind in the log. *)
Theorem fetch_reraises symbol h e :
  (decoded (profile_response rt self symbol h) = Raise e ->
   exists ev,
     run (get_etf_profile rt self symbol) h = (Raise e, ev) /\
     error_lines ev = fetch_error_lines e) /\
  (decoded (holdings_response rt self symbol h) = Raise e ->
   exists ev,
     run (get_etf_holdings rt self symbol) h = (Raise e, ev) /\
     error_lines ev = fetch_error_lines e).
Proof.
  unfold decoded, profile_response, holdings_response, profile_request,
    holdings_request, fetch_error_lines.
  split; unfold run, get_etf_profile, get_etf_holdings; case_prog;
    intros [=]; subst; try congruence;
    eexists; split; reflexivity.
Qed.

(** What a fetch returns is the decoded body of an answer that passed the
    status check, unchanged; that body holds no ['Error Message'], and no
    error line is logged. *)
Theorem fetch_returns_the_body symbol h data ev :
  (run (get_etf_profile rt self symbol) h = (Ok data, ev) ->
   decoded (profile_response rt self symbol h) = Ok data /\
   py_in "Error Message" data = Ok false /\
   error_lines ev = []) /\
  (run (get_etf_holdings rt self symbol) h = (Ok data, ev) ->
   decoded (holdings_response rt self symbol h) = Ok data /\
   py_in "Error Message" data = Ok false /\
   error_lines ev = []).
Proof.
  unfold decoded, profile_response, holdings_response, profile_request,
    holdings_request.
  split; unfold run, get_etf_profile, get_etf_holdings; case_prog;
    intros [=]; subst; repeat split; congruence.
Qed.

(** A decoded body that is not an object is never taken for an upstream
    error: the fetch returns it unchanged when neither ['Error Message']
    nor ['Note'] is found in it, and raises a [TypeError] otherwise, always
    so for [null], a boolean or a number. *)
Theorem fetch_of_non_object symbol h data :
  (forall d, data <> VDict d) ->
  (decoded (profile_response rt self symbol h) = Ok data ->
   let r := fst (run (get_etf_profile rt self symbol) h) in
   ~ is_api_error rt r /\
   (r = Ok data <->
    py_in "Error Message" data = Ok false /\ py_in "Note" data = Ok false) /\
   (r <> Ok data -> is_type_error r) /\
   (is_scalar data = true -> is_type_error r)) /\
  (decoded (holdings_response rt self symbol h) = Ok data ->
   let r := fst (run (get_etf_holdings rt self symbol) h) in
   ~ is_api_error rt r /\
   (r = Ok data <->
    py_in "Error Message" data = Ok false /\ py_in "Note" data = Ok false) /\
   (r <> Ok data -> is_type_error r) /\
   (is_scalar data = true -> is_type_error r)).
Proof.
  intros Hno.
  unfold decoded, profile_response, holdings_response, profile_request,
    holdings_request, is_api_error, is_type_error, api_error.
  split; unfold run, get_etf_profile, get_etf_holdings; unfold_prog;
    match goal with
    | |- context [http_get rt ?a ?b ?c ?d] => destruct (http_get rt a b c d)
    end; try discriminate;
    unfold_prog;
    match goal with
    | |- context [if ?b then _ else _] => destruct b
    end; try discriminate;
    intros ->; unfold_prog;
    destruct data as [| | | | s | l | d];
      try (exfalso; eapply Hno; reflexivity);
      cbn [py_in py_getitem is_scalar fst is_RequestException
             is_JSONDecodeError exn_cls];
      unfold_prog;
      repeat match goal with
        | |- context [if ?b then _ else _] =>
            destruct b eqn:?; unfold_prog;
            cbn [py_getitem fst is_RequestException is_JSONDecodeError exn_cls]
        end;
      (split; [intros [v Hv]; discriminate Hv |]);
      (split; [split;
               [intros Hx; (discriminate Hx || (split; reflexivity))
               | intros [H1 H2];
                 (reflexivity || discriminate H1 || discriminate H2)] |]);
      (split; [intros Hr; ((exfalso; apply Hr; reflexivity) || eauto)
              | intros Hs; (discriminate Hs || eauto)]).
Qed.

End FetchMore.

(** ** Storing: what is uploaded, and under which name *)

Lemma string_app_length (a b : string) :
  String.length (a ++ b) = String.length a + String.length b.
Proof. induction a as [|c a IH]; cbn; [reflexivity | now rewrite IH]. Qed.

Lemma pad_app_inj (w : nat) (a b : N) (x z : string) :
  (a < 10 ^ N.of_nat w)%N -> (b < 10 ^ N.of_nat w)%N ->
  pad w a ++ x = pad w b ++ z -> a = b /\ x = z.
Proof.
  intros Ha Hb H.
  apply string_app_split in H; [|now rewrite !pad_length].
  destruct H as [H ->]. split; [|reflexivity].
  apply (pad_inj w); assumption.
Qed.

Lemma strftime_date_path_length t : String.length (strftime_date_path t) = 10.
Proof.
  unfold strftime_date_path.
  repeat (rewrite string_app_length || rewrite pad_length). reflexivity.
Qed.

Lemma strftime_stamp_length t : String.length (strftime_stamp t) = 15.
Proof.
  unfold strftime_stamp.
  repeat (rewrite string_app_length || rewrite pad_length). reflexivity.
Qed.

Lemma strftime_date_path_inj t1 t2 :
  wf_datetime t1 -> wf_datetime t2 ->
  strftime_date_path t1 = strftime_date_path t2 -> date_of t1 = date_of t2.
Proof.
  unfold wf_datetime, strftime_date_path, date_of. intros W1 W2 H.
  apply pad_app_inj in H; [|cbn; lia..]. destruct H as [Hy H].
  apply string_app_cancel in H.
  apply pad_app_inj in H; [|cbn; lia..]. destruct H as [Hm H].
  apply string_app_cancel in H.
  apply (pad_inj 2) in H; [|cbn; lia..].
  congruence.
Qed.

Lemma strftime_stamp_inj t1 t2 :
  wf_datetime t1 -> wf_datetime t2 ->
  strftime_stamp t1 = strftime_stamp t2 -> seconds_of t1 = seconds_of t2.
Proof.
  unfold wf_datetime, strftime_stamp, seconds_of. intros W1 W2 H.
  apply pad_app_inj in H; [|cbn; lia..]. destruct H as [Hy H].
  apply pad_app_inj in H; [|cbn; lia..]. destruct H as [Hmo H].
  apply pad_app_inj in H; [|cbn; lia..]. destruct H as [Hd H].
  apply string_app_cancel in H.
  apply pad_app_inj in H; [|cbn; lia..]. destruct H as [Hh H].
  apply pad_app_inj in H; [|cbn; lia..]. destruct H as [Hmi H].
  apply (pad_inj 2) in H; [|cbn; lia..].
  congruence.
Qed.

Section StoreMore.

Variable rt : runtime.
Variable self : AlphaVantageETFIngest.

Lemma blob_name_of_length symbol kind ts dp :
  String.length (blob_name_of rt symbol kind ts dp) =
  2 * String.length (fmt rt symbol) + 2 * String.length kind +
  String.length ts + String.length dp + 19.
Proof.
  unfold blob_name_of. repeat rewrite string_app_length. cbn. lia.
Qed.

(** [store_to_gcs] reads the clock twice and makes one upload, to the
    bucket of [self], of the data it was given, as JSON; the object is
    labelled with the symbol, the kind, the first reading's stamp and the
    source; its name carries the second reading's date as partition and
    the first reading's stamp in the file name.  No request is sent. *)
Theorem store_to_gcs_upload data symbol data_type h :
  exists t1 t2 u res,
    clock_reads (snd (run (store_to_gcs rt self data symbol data_type) h)) =
      [t1; t2] /\
    uploads (snd (run (store_to_gcs rt self data symbol data_type) h)) =
      [(u, res)] /\
    gets (snd (run (store_to_gcs rt self data symbol data_type) h)) = [] /\
    up_bucket u = bucket_name self /\
    up_data u = data /\
    up_content_type u = "application/json" /\
    up_metadata u = [("symbol", symbol); ("data_type", VStr data_type);
                     ("ingestion_timestamp", VStr (strftime_stamp t1));
                     ("source", VStr "alphavantage")] /\
    up_blob_name u =
      "etf_data/" ++ data_type ++ "/" ++ fmt rt symbol ++ "/" ++
      strftime_date_path t2 ++ "/" ++
      fmt rt symbol ++ "_" ++ data_type ++ "_" ++ strftime_stamp t1 ++ ".json".
Proof.
  unfold run, store_to_gcs. case_prog; do 4 eexists; repeat split.
Qed.

(** [store_to_gcs] returns the location of the object exactly when the
    upload goes through; when the upload raises, the same exception is
    raised again after one error line, nothing is written and there is no
    second attempt. *)
Theorem store_to_gcs_outcome data symbol data_type h :
  exists u res,
    uploads (snd (run (store_to_gcs rt self data symbol data_type) h)) =
      [(u, res)] /\
    match res with
    | None =>
        run (store_to_gcs rt self data symbol data_type) h =
          (Ok ("gs://" ++ bucket_name self ++ "/" ++ up_blob_name u),
           snd (run (store_to_gcs rt self data symbol data_type) h)) /\
        written (snd (run (store_to_gcs rt self data symbol data_type) h)) = [u] /\
        error_lines (snd (run (store_to_gcs rt self data symbol data_type) h)) = []
    | Some e =>
        run (store_to_gcs rt self data symbol data_type) h =
          (Raise e, snd (run (store_to_gcs rt self data symbol data_type) h)) /\
        written (snd (run (store_to_gcs rt self data symbol data_type) h)) = [] /\
        error_lines (snd (run (store_to_gcs rt self data symbol data_type) h)) =
          ["存储到 GCS 失败: " ++ exn_str e]
    end.
Proof.
  unfold run, store_to_gcs. case_prog; do 2 eexists;
    (split; [reflexivity|]); repeat split.
Qed.

(** The date partition of an object's name is the day of its file-name
    stamp exactly when the two readings of the clock fall on the same
    day. *)
Theorem store_to_gcs_partition data symbol data_type h t1 t2 :
  clock rt h = t1 ->
  clock rt (after_first_reading rt h) = t2 ->
  wf_datetime t1 -> wf_datetime t2 ->
  exists u res,
    uploads (snd (run (store_to_gcs rt self data symbol data_type) h)) =
      [(u, res)] /\
    (up_blob_name u = storage_key (fmt rt symbol) data_type (seconds_of t1) <->
     date_of t1 = date_of t2).
Proof.
  intros H1 H2 W1 W2.
  destruct (run (store_to_gcs rt self data symbol data_type) h) as [r ev] eqn:Hrun.
  apply store_to_gcs_events in Hrun. cbv zeta in Hrun.
  destruct Hrun as (_ & _ & Hr).
  exists (upload_of rt self data symbol data_type h),
         (match r with Ok _ => None | Raise e => Some e end).
  split; [destruct r; cbn [snd]; apply Hr|].
  unfold upload_of. cbn [up_blob_name]. rewrite H1, H2.
  rewrite <- blob_name_is_storage_key. unfold blob_name_of. split.
  - intros H. do 5 apply string_app_cancel in H.
    apply string_app_split in H; [|now rewrite !strftime_date_path_length].
    symmetry. apply strftime_date_path_inj; tauto.
  - intros Hd. unfold strftime_date_path, date_of in *.
    injection Hd as -> -> ->. reflexivity.
Qed.

(** Object names do not collide: for one kind, two names agree only for
    the same symbol text, the same second of the first reading and the
    same day of the second; and a profile never shares its name with any
    holdings. *)
Theorem blob_names_are_unique :
  (forall symbol1 symbol2 kind t1 t1' t2 t2',
      wf_datetime t1 -> wf_datetime t1' ->
      wf_datetime t2 -> wf_datetime t2' ->
      blob_name_of rt symbol1 kind (strftime_stamp t1) (strftime_date_path t1') =
      blob_name_of rt symbol2 kind (strftime_stamp t2) (strftime_date_path t2') ->
      fmt rt symbol1 = fmt rt symbol2 /\
      seconds_of t1 = seconds_of t2 /\ date_of t1' = date_of t2') /\
  (forall symbol1 symbol2 ts1 dp1 ts2 dp2,
      blob_name_of rt symbol1 "profile" ts1 dp1 <>
      blob_name_of rt symbol2 "holdings" ts2 dp2).
Proof.
  split.
  - intros symbol1 symbol2 kind t1 t1' t2 t2' W1 W1' W2 W2' H.
    assert (Hlen : String.length (fmt rt symbol1) = String.length (fmt rt symbol2)).
    { apply (f_equal String.length) in H.
      rewrite !blob_name_of_length, !strftime_stamp_length,
        !strftime_date_path_length in H. lia. }
    unfold blob_name_of in H.
    do 3 apply string_app_cancel in H.
    apply string_app_split in H; [|exact Hlen]. destruct H as [Hs H].
    apply string_app_cancel in H.
    apply string_app_split in H; [|now rewrite !strftime_date_path_length].
    destruct H as [Hd H]. rewrite Hs in H.
    do 5 apply string_app_cancel in H.
    apply string_app_split in H; [|now rewrite !strftime_stamp_length].
    destruct H as [Ht _].
    repeat split;
      [exact Hs | apply strftime_stamp_inj | apply strftime_date_path_inj];
      assumption.
  - intros symbol1 symbol2 ts1 dp1 ts2 dp2 H. unfold blob_name_of in H.
    cbn in H. discriminate H.
Qed.

End StoreMore.

(** ** Constructing the ingest object *)

Section ConstructionMore.

Variable rt : runtime.


End ConstructionMore.

(** ** Ingesting one symbol: the whole run *)

Section IngestMore.

Variable rt : runtime.
Variable self : AlphaVantageETFIngest.
Variable symbol : value.

(** When the four steps of an ingestion with holdings succeed, the outcome
    has status ['success'] and no error message, its time is the clock's
    first reading, and it lists the profile's location and then the
    holdings'; the queries were the profile's and then the holdings', and
    the two objects written hold the two payloads as they were fetched. *)
Theorem ingest_with_holdings_succeeds S (s : S) h
        data ev1 path ev2 hdata ev3 path2 ev4 :
  run (get_etf_profile rt self symbol) (at_profile_fetch rt symbol h) =
    (Ok data, ev1) ->
  run (store_to_gcs rt self data symbol "profile")
      (at_profile_fetch rt symbol h ++ ev1)%list = (Ok path, ev2) ->
  run (get_etf_holdings rt self symbol)
      (at_profile_fetch rt symbol h ++ ev1 ++ ev2)%list = (Ok hdata, ev3) ->
  run (store_to_gcs rt self hdata symbol "holdings")
      (at_profile_fetch rt symbol h ++ ev1 ++ ev2 ++ ev3)%list = (Ok path2, ev4) ->
  exists o evs,
    ingest_etf_data rt self symbol true s h = (Ok o, s, evs) /\
    status o = Some "success" /\ error_message o = None /\
    o_timestamp o = isoformat (clock rt h) /\
    files_created o = [path; path2] /\
    api_calls evs = [Some (profile_request self symbol);
                     Some (holdings_request self symbol)] /\
    map location_of (written evs) = [path; path2] /\
    map up_data (written evs) = [data; hdata] /\
    map kind_of (written evs) = [Some (VStr "profile"); Some (VStr "holdings")].
Proof.
  unfold at_profile_fetch. intros H1 H2 H3 H4.
  rewrite ingest_etf_data_eq. cbv zeta.
  repeat rewrite <- app_assoc in *.
  rewrite H1, H2, H3, H4.
  do 2 eexists. split; [reflexivity|].
  events_facts. observe. subst. repeat split.
Qed.

(** An ingestion ends with status ['success'] exactly when none of its
    fetch and write steps fails, and with status ['error'] exactly when one
    does. *)
Theorem ingest_succeeds_iff_no_step_fails include_holdings S (s : S) h :
  exists o evs,
    ingest_etf_data rt self symbol include_holdings s h = (Ok o, s, evs) /\
    (status o = Some "success" <->
     ~ exists e, step_fails rt self symbol include_holdings h e) /\
    (status o = Some "error" <->
     exists e, step_fails rt self symbol include_holdings h e).
Proof.
  assert (Hpf : forall e ev,
             run (get_etf_profile rt self symbol) (at_profile_fetch rt symbol h)
             = (Raise e, ev) ->
             step_fails rt self symbol include_holdings h e).
  { intros e ev H. left. eapply profile_fetch_fails; eassumption. }
  assert (Hfetch : forall e,
             profile_step_fails rt self symbol h e ->
             (exists ev1, run (get_etf_profile rt self symbol)
                              (at_profile_fetch rt symbol h) = (Raise e, ev1)) \/
             (exists data ev1 ev2,
                 run (get_etf_profile rt self symbol)
                     (at_profile_fetch rt symbol h) = (Ok data, ev1) /\
                 run (store_to_gcs rt self data symbol "profile")
                     (at_profile_fetch rt symbol h ++ ev1)%list = (Raise e, ev2))).
  { intros e [ev1 H | resp d v Hget Hst Hjson He -> | data ev1 ev2 Ha Hb].
    - left; eauto.
    - left. eapply api_error_fetch_fails; eauto.
    - right; eauto 6. }
  rewrite ingest_etf_data_eq. cbv zeta.
  fold (at_profile_fetch rt symbol h).
  destruct (run (get_etf_profile rt self symbol) (at_profile_fetch rt symbol h))
    as [[data|e] ev1] eqn:H1.
  2: { do 2 eexists. split; [reflexivity|]. cbn. split; split.
       - discriminate.
       - intros Hn. exfalso. apply Hn. eauto.
       - eauto.
       - reflexivity. }
  replace (h ++ ingest_start rt symbol h ++ ev1)%list
    with (at_profile_fetch rt symbol h ++ ev1)%list
    by (unfold at_profile_fetch; now rewrite <- app_assoc).
  destruct (run (store_to_gcs rt self data symbol "profile")
                (at_profile_fetch rt symbol h ++ ev1)%list)
    as [[path|e] ev2] eqn:H2.
  2: { assert (Hs : step_fails rt self symbol include_holdings h e)
         by (left; eapply profile_write_fails; eassumption).
       do 2 eexists. split; [reflexivity|]. cbn. split; split.
       - discriminate.
       - intros Hn. exfalso. apply Hn. eauto.
       - eauto.
       - reflexivity. }
  assert (Hnop : forall e, ~ profile_step_fails rt self symbol h e).
  { intros e Hp. destruct (Hfetch e Hp) as [[ev Ha] | (d' & ev & ev' & Ha & Hb)];
      try rewrite H1 in Ha; [discriminate|].
    injection Ha as <- <-. rewrite H2 in Hb. discriminate. }
  destruct include_holdings.
  2: { do 2 eexists. split; [reflexivity|]. cbn. split; split.
       - intros _ [e [Hp | [[=] _]]]. exact (Hnop e Hp).
       - reflexivity.
       - discriminate.
       - intros [e [Hp | [[=] _]]]. exfalso. exact (Hnop e Hp). }
  replace (h ++ ingest_start rt symbol h ++ ev1 ++ ev2)%list
    with (at_profile_fetch rt symbol h ++ ev1 ++ ev2)%list
    by (unfold at_profile_fetch; now rewrite <- app_assoc).
  destruct (run (get_etf_holdings rt self symbol)
                (at_profile_fetch rt symbol h ++ ev1 ++ ev2)%list)
    as [[hdata|e] ev3] eqn:H3.
  2: { assert (Hs : step_fails rt self symbol true h e).
       { right. split; [reflexivity|]. exists path.
         eapply holdings_fetch_fails; eassumption. }
       do 2 eexists. split; [reflexivity|]. cbn. split; split.
       - discriminate.
       - intros Hn. exfalso. apply Hn. eauto.
       - eauto.
       - reflexivity. }
  replace (h ++ ingest_start rt symbol h ++ ev1 ++ ev2 ++ ev3)%list
    with (at_profile_fetch rt symbol h ++ ev1 ++ ev2 ++ ev3)%list
    by (unfold at_profile_fetch; now rewrite <- app_assoc).
  destruct (run (store_to_gcs rt self hdata symbol "holdings")
                (at_profile_fetch rt symbol h ++ ev1 ++ ev2 ++ ev3)%list)
    as [[path2|e] ev4] eqn:H4.
  2: { assert (Hs : step_fails rt self symbol true h e).
       { right. split; [reflexivity|]. exists path.
         eapply holdings_write_fails; eassumption. }
       do 2 eexists. split; [reflexivity|]. cbn. split; split.
       - discriminate.
       - intros Hn. exfalso. apply Hn. eauto.
       - eauto.
       - reflexivity. }
  assert (Hnoh : forall e path', ~ holdings_step_fails rt self symbol h path' e).
  { intros e path' [d' a b c Ha Hb Hc | d' a b hd c d Ha Hb Hc Hd];
      rewrite H1 in Ha; injection Ha as <- <-;
      rewrite H2 in Hb; injection Hb as <- <-;
      rewrite H3 in Hc; [discriminate|].
    injection Hc as <- <-. rewrite H4 in Hd. discriminate. }
  do 2 eexists. split; [reflexivity|]. cbn. split; split.
  - intros _ [e [Hp | [_ [path' Hh]]]];
      [exact (Hnop e Hp) | exact (Hnoh e path' Hh)].
  - reflexivity.
  - discriminate.
  - intros [e [Hp | [_ [path' Hh]]]]; exfalso;
      [exact (Hnop e Hp) | exact (Hnoh e path' Hh)].
Qed.

(** Whatever happens, the locations an outcome lists are those of the
    objects written during the ingestion, in order; an ingestion attempts
    no upload without a query before it, and sends at most two queries. *)
Theorem ingest_accounts_for_its_writes include_holdings S (s : S) h :
  exists o evs,
    ingest_etf_data rt self symbol include_holdings s h = (Ok o, s, evs) /\
    files_created o = map location_of (written evs) /\
    o_timestamp o = isoformat (clock rt h) /\
    List.length (written evs) <= List.length (uploads evs) /\
    List.length (uploads evs) <= List.length (api_calls evs) /\
    List.length (api_calls evs) <= 2.
Proof.
  rewrite ingest_etf_data_eq. cbv zeta.
  destruct (run (get_etf_profile rt self symbol) _) as [[data|e] ev1] eqn:H1.
  2: { do 2 eexists; split; [reflexivity|].
       events_facts. observe. cbn. repeat split; lia. }
  destruct (run (store_to_gcs rt self data symbol "profile") _)
    as [[path|e] ev2] eqn:H2.
  2: { do 2 eexists; split; [reflexivity|].
       events_facts. observe. cbn. repeat split; lia. }
  destruct include_holdings.
  2: { do 2 eexists; split; [reflexivity|].
       events_facts. observe. subst. cbn. repeat split; lia. }
  destruct (run (get_etf_holdings rt self symbol) _) as [[hdata|e] ev3] eqn:H3.
  2: { do 2 eexists; split; [reflexivity|].
       events_facts. observe. subst. cbn. repeat split; lia. }
  destruct (run (store_to_gcs rt self hdata symbol "holdings") _)
    as [[path2|e] ev4] eqn:H4;
    (do 2 eexists; split; [reflexivity|]);
    events_facts; observe; subst; cbn; repeat split; lia.
Qed.

(** The holdings are asked for exactly when they are wanted and the
    profile has been fetched and written; otherwise the profile query is
    the only one. *)
Theorem holdings_asked_iff_profile_stored include_holdings S (s : S) h :
  exists o evs,
    ingest_etf_data rt self symbol include_holdings s h = (Ok o, s, evs) /\
    ((include_holdings = true /\
      exists path, profile_step_succeeds rt self symbol h path) ->
     api_calls evs = [Some (profile_request self symbol);
                      Some (holdings_request self symbol)]) /\
    (~ (include_holdings = true /\
        exists path, profile_step_succeeds rt self symbol h path) ->
     api_calls evs = [Some (profile_request self symbol)]).
Proof.
  rewrite ingest_etf_data_eq. cbv zeta.
  unfold profile_step_succeeds, at_profile_fetch.
  destruct (run (get_etf_profile rt self symbol) _) as [[data|e] ev1] eqn:H1.
  2: { do 2 eexists; split; [reflexivity|]. split.
       - intros [_ (p & d & a & b & [=] & _)].
       - intros _. events_facts. observe. reflexivity. }
  destruct (run (store_to_gcs rt self data symbol "profile") _)
    as [[path|e] ev2] eqn:H2.
  2: { do 2 eexists; split; [reflexivity|]. split.
       - intros [_ (p & d & a & b & [= <- <-] & Hb)].
         rewrite <- app_assoc in Hb. rewrite H2 in Hb. discriminate.
       - intros _. events_facts. observe. reflexivity. }
  destruct include_holdings.
  2: { do 2 eexists; split; [reflexivity|]. split.
       - intros [[=] _].
       - intros _. events_facts. observe. reflexivity. }
  assert (Hyes : true = true /\
                 exists p d a b,
                   (Ok data, ev1) = (Ok d, a) /\
                   run (store_to_gcs rt self d symbol "profile")
                       ((h ++ ingest_start rt symbol h) ++ a)%list = (Ok p, b)).
  { split; [reflexivity|]. exists path, data, ev1, ev2.
    split; [reflexivity|]. rewrite <- app_assoc. exact H2. }
  destruct (run (get_etf_holdings rt self symbol) _) as [[hdata|e] ev3] eqn:H3.
  2: { do 2 eexists; split; [reflexivity|]. split.
       - intros _. events_facts. observe. reflexivity.
       - intros Hn. exfalso. exact (Hn Hyes). }
  destruct (run (store_to_gcs rt self hdata symbol "holdings") _)
    as [[path2|e] ev4] eqn:H4;
    (do 2 eexists; split; [reflexivity|]); (split;
     [intros _; events_facts; observe; reflexivity
     | intros Hn; exfalso; exact (Hn Hyes)]).
Qed.

End IngestMore.

(** ** The entry points: every request, every event *)

Section EntryPointsMore.

Variable rt : runtime.

(** The objects an ingestion reports and the queries it sends. *)
Lemma ingest_etf_data_tally self symbol include_holdings S (s : S) h :
  exists o evs,
    ingest_etf_data rt self symbol include_holdings s h = (Ok o, s, evs) /\
    files_created o = map location_of (written evs) /\
    settled o /\
    (api_calls evs = [Some (profile_request self symbol)] \/
     (include_holdings = true /\
      api_calls evs = [Some (profile_request self symbol);
                       Some (holdings_request self symbol)])).
Proof.
  rewrite ingest_etf_data_eq. cbv zeta. unfold settled.
  destruct (run (get_etf_profile rt self symbol) _) as [[data|e] ev1] eqn:H1.
  2: { do 2 eexists; split; [reflexivity|].
       events_facts. observe. cbn. repeat split; eauto. }
  destruct (run (store_to_gcs rt self data symbol "profile") _)
    as [[path|e] ev2] eqn:H2.
  2: { do 2 eexists; split; [reflexivity|].
       events_facts. observe. cbn. repeat split; eauto. }
  destruct include_holdings.
  2: { do 2 eexists; split; [reflexivity|].
       events_facts. observe. subst. cbn. repeat split; eauto. }
  destruct (run (get_etf_holdings rt self symbol) _) as [[hdata|e] ev3] eqn:H3.
  2: { do 2 eexists; split; [reflexivity|].
       events_facts. observe. subst. cbn. repeat split; eauto. }
  destruct (run (store_to_gcs rt self hdata symbol "holdings") _)
    as [[path2|e] ev4] eqn:H4;
    (do 2 eexists; split; [reflexivity|]);
    events_facts; observe; subst; cbn; repeat split; eauto.
Qed.

(** The HTTP handler answers every request: it never raises, its status
    code is 200, 400, 405 or 500, it answers 200 exactly with an outcome of
    status ['success'], and a 400 or 405 comes with an error body and
    without anything having been done. *)
Theorem etf_data_ingest_always_answers (req : request) (h : trace) :
  exists b code evs,
    run (etf_data_ingest rt req) h = (Ok (b, code), evs) /\
    (code = 200 \/ code = 400 \/ code = 405 \/ code = 500) /\
    (code = 200 <-> exists o, b = BodyOutcome o /\ status o = Some "success") /\
    (code = 400 \/ code = 405 -> evs = [] /\ exists msg, b = BodyError msg) /\
    (forall o, b = BodyOutcome o -> settled o /\ code = http_code o).
Proof.
  assert (Hfail : forall (msg ts : string) (evs : list event),
    (500 = 200 \/ 500 = 400 \/ 500 = 405 \/ 500 = 500) /\
    (500 = 200 <->
     exists o, BodyFailure "error" msg ts = BodyOutcome o /\
               status o = Some "success") /\
    (500 = 400 \/ 500 = 405 ->
     evs = [] /\ exists m, BodyFailure "error" msg ts = BodyError m) /\
    (forall o, BodyFailure "error" msg ts = BodyOutcome o ->
               settled o /\ 500 = http_code o)).
  { intros msg ts evs. split; [tauto|]. split.
    - split; [discriminate | intros (o & [=] & _)].
    - split; [intros [[=]|[=]] | intros o [=]]. }
  assert (Hclient : forall (msg : string) (code : nat),
    code = 400 \/ code = 405 ->
    (code = 200 \/ code = 400 \/ code = 405 \/ code = 500) /\
    (code = 200 <->
     exists o, BodyError msg = BodyOutcome o /\ status o = Some "success") /\
    (code = 400 \/ code = 405 ->
     @nil event = [] /\ exists m, BodyError msg = BodyError m) /\
    (forall o, BodyError msg = BodyOutcome o -> settled o /\ code = http_code o)).
  { intros msg code Hc. split; [tauto|]. split.
    - split; [intros ->; destruct Hc as [[=]|[=]] | intros (o & [=] & _)].
    - split; [eauto | intros o [=]]. }
  unfold run, etf_data_ingest. unfold_prog.
  destruct (String.eqb (method req) "POST"); cbn [negb].
  2: { do 3 eexists. split; [reflexivity|]. apply Hclient. tauto. }
  destruct (get_json req) as [v|].
  2: { do 3 eexists. split; [reflexivity|]. apply Hclient. tauto. }
  destruct (truthy v) eqn:Hv; cbn [negb].
  2: { do 3 eexists. split; [reflexivity|]. apply Hclient. tauto. }
  destruct v as [| | | | | |d];
    try (cbn [py_get]; do 3 eexists; split; [reflexivity|]; apply Hfail).
  rewrite !py_get_dict. unfold_prog.
  destruct (truthy (default_to VNone (dict_get "symbol" d))); cbn [negb].
  2: { do 3 eexists. split; [reflexivity|]. apply Hclient. tauto. }
  rewrite AlphaVantageETFIngest_init_frame. tidy_app.
  destruct (run (AlphaVantageETFIngest_init rt) h) as [[self|e] ev0].
  2: { tidy_app. do 3 eexists. split; [reflexivity|]. apply Hfail. }
  tidy_app.
  match goal with
  | |- context [ingest_etf_data rt self ?sym ?b tt ?h'] =>
      destruct (ingest_etf_data_tally self sym b unit tt h')
      as (o & ev & Hrun & _ & Hst & _)
  end.
  rewrite Hrun. unfold outcome_getitem_status.
  assert (Hset := Hst).
  destruct Hst as [[Hs He] | [Hs He]]; rewrite Hs; tidy_app;
    do 3 eexists; (split; [reflexivity|]).
  - split; [tauto|]. split; [split; eauto|].
    split; [intros [[=]|[=]]|].
    intros o' [= <-]. split; [exact Hset|]. unfold http_code. now rewrite Hs.
  - split; [tauto|]. split.
    + split; [discriminate|]. intros (o' & [= <-] & Hs'). congruence.
    + split; [intros [[=]|[=]]|].
      intros o' [= <-]. split; [exact Hset|]. unfold http_code. now rewrite Hs.
Qed.

(** How the handler reads ['include_holdings']: a POST that leaves it out
    is answered as an ingestion with holdings; a POST that sets it to a
    false value ([false], [null], [0], the empty string) is answered as an
    ingestion without, which sends the profile query and no other. *)
Theorem etf_data_ingest_holdings_flag (req : request) (h : trace)
        d symbol self ev0 :
  method req = "POST" ->
  get_json req = Some (VDict d) ->
  dict_get "symbol" d = Some symbol -> truthy symbol = true ->
  run (AlphaVantageETFIngest_init rt) h = (Ok self, ev0) ->
  exists o ev,
    run (etf_data_ingest rt req) h =
      (Ok (BodyOutcome o, http_code o), (ev0 ++ ev)%list) /\
    (dict_get "include_holdings" d = None ->
     run (ingest_etf_data rt self symbol true) (h ++ ev0)%list = (Ok o, ev)) /\
    (forall v, dict_get "include_holdings" d = Some v -> truthy v = false ->
     run (ingest_etf_data rt self symbol false) (h ++ ev0)%list = (Ok o, ev) /\
     api_calls (ev0 ++ ev)%list = [Some (profile_request self symbol)]).
Proof.
  intros Hm Hjson Hsym Htrue Hinit.
  destruct (ingest_etf_data_tally self symbol
              (truthy (default_to (VBool true) (dict_get "include_holdings" d)))
              unit tt (h ++ ev0)%list)
    as (o & ev & Hrun & _ & Hst & Hcalls).
  exists o, ev. split.
  - unfold run, etf_data_ingest. unfold_prog.
    rewrite Hm, Hjson. cbn [String.eqb Ascii.eqb Bool.eqb negb].
    destruct d as [|kv d]; [discriminate|]. cbn [truthy negb].
    rewrite !py_get_dict. unfold_prog. rewrite Hsym. cbn [default_to].
    rewrite Htrue. cbn [negb].
    rewrite AlphaVantageETFIngest_init_frame. tidy_app. rewrite Hinit.
    tidy_app. rewrite Hrun. unfold outcome_getitem_status, http_code.
    destruct Hst as [[-> _] | [-> _]]; tidy_app; reflexivity.
  - split.
    + intros Hnone. rewrite Hnone in Hrun. cbn [default_to truthy] in Hrun.
      unfold run. now rewrite Hrun.
    + intros v Hv Hfalse. rewrite Hv in Hrun, Hcalls.
      cbn [default_to] in Hrun, Hcalls. rewrite Hfalse in Hrun, Hcalls.
      split; [unfold run; now rewrite Hrun|].
      apply AlphaVantageETFIngest_init_events in Hinit.
      destruct Hinit as (Ha & _).
      rewrite api_calls_app, Ha.
      destruct Hcalls as [-> | [[=] _]]. reflexivity.
Qed.

(** Without symbols, be the list missing or empty, the scheduled run logs
    one error line and returns nothing: it constructs nothing, sends
    nothing, writes nothing, and does not raise. *)
Theorem scheduled_without_symbols (ev : cloud_event) (h : trace) :
  ce_symbols ev = None \/ ce_symbols ev = Some [] ->
  run (etf_data_ingest_scheduled rt ev) h =
    (Ok None, [EvLog ERROR "未提供 ETF 符号列表"]).
Proof.
  intros [H | H]; unfold run, etf_data_ingest_scheduled; unfold_prog;
    rewrite H; reflexivity.
Qed.

(** With symbols, the scheduled run raises only what the construction of
    the ingest object raises, as it is and after one error line, before any
    symbol is touched; once the object is constructed the run does not
    raise. *)
Theorem scheduled_raises_only_from_construction symbols flag (h : trace) :
  symbols <> [] ->
  (forall e ev0,
      run (AlphaVantageETFIngest_init rt) h = (Raise e, ev0) ->
      run (etf_data_ingest_scheduled rt (mkCloudEvent (Some symbols) flag)) h =
        (Raise e,
         (ev0 ++ [EvLog ERROR ("定时 Cloud Function 执行失败: " ++ exn_str e)])%list) /\
      api_calls ev0 = [] /\ uploads ev0 = []) /\
  (forall e evs,
      run (etf_data_ingest_scheduled rt (mkCloudEvent (Some symbols) flag)) h =
        (Raise e, evs) ->
      exists ev0, run (AlphaVantageETFIngest_init rt) h = (Raise e, ev0)).
Proof.
  intros Hne.
  assert (Ht : truthy (VList symbols) = true)
    by (destruct symbols; [congruence | reflexivity]).
  assert (Hraise : forall e ev0,
             run (AlphaVantageETFIngest_init rt) h = (Raise e, ev0) ->
             run (etf_data_ingest_scheduled rt (mkCloudEvent (Some symbols) flag)) h =
             (Raise e,
              (ev0 ++ [EvLog ERROR ("定时 Cloud Function 执行失败: " ++ exn_str e)])%list)).
  { intros e ev0 Hinit.
    rewrite etf_data_ingest_scheduled_eq. unfold run. unfold_prog.
    cbn [ce_symbols ce_include_holdings]. rewrite Ht. cbn [negb]. unfold_prog.
    rewrite AlphaVantageETFIngest_init_frame. tidy_app. rewrite Hinit.
    tidy_app. reflexivity. }
  split.
  - intros e ev0 Hinit. split; [exact (Hraise e ev0 Hinit)|].
    apply AlphaVantageETFIngest_init_events in Hinit. tauto.
  - intros e evs Hrun.
    destruct (run (AlphaVantageETFIngest_init rt) h) as [[self|e'] ev0] eqn:Hinit.
    + destruct (scheduled_run rt symbols flag h self ev0 Hne Hinit)
        as (results & evs' & Hok & _).
      rewrite Hok in Hrun. discriminate.
    + rewrite (Hraise e' ev0 eq_refl) in Hrun. injection Hrun as <- _. eauto.
Qed.

End EntryPointsMore.

Section BatchMore.

Variable rt : runtime.

Lemma AlphaVantageETFIngest_init_ok_events h self ev :
  run (AlphaVantageETFIngest_init rt) h = (Ok self, ev) ->
  ev = [EvStorageClient None].
Proof.
  unfold run, AlphaVantageETFIngest_init. case_prog; intros [=]; subst;
    reflexivity.
Qed.

Lemma batch_loop_tally ingest flag symbols :
  forall results h,
  exists outcomes evs,
    for_each symbols (batch_body rt ingest flag) results h =
      (Ok tt, (results ++ outcomes)%list, evs) /\
    List.concat (map files_created outcomes) = map location_of (written evs) /\
    List.length symbols <= List.length (api_calls evs) /\
    List.length (api_calls evs) <= 2 * List.length symbols /\
    (truthy flag = false ->
     api_calls evs = map (fun s => Some (profile_request ingest s)) symbols).
Proof.
  induction symbols as [|symbol rest IH]; intros results h.
  - exists [], []. cbn. rewrite app_nil_r. repeat split; lia.
  - cbn [for_each]. unfold batch_body at 1. unfold_prog. tidy_app.
    match goal with
    | |- context [ingest_etf_data rt ingest symbol ?b results ?h'] =>
        destruct (ingest_etf_data_tally rt ingest symbol b _ results h')
        as (o & ev & Hrun & Hfiles & _ & Hcalls)
    end.
    rewrite Hrun. tidy_app.
    match goal with
    | |- context [for_each rest _ ?results' ?h'] =>
        destruct (IH results' h')
        as (outcomes & evs & Hloop & Hcat & Hlo & Hhi & Hflag)
    end.
    rewrite Hloop. tidy_app.
    do 2 eexists. split; [reflexivity|].
    cbn [written api_calls map List.concat List.length].
    rewrite written_app, api_calls_app, map_app, !length_app, Hfiles, Hcat.
    split; [reflexivity|].
    destruct Hcalls as [Hc | [Hb Hc]]; rewrite Hc; cbn [List.length app].
    + repeat split; try lia. intros Hf. now rewrite (Hflag Hf).
    + repeat split; try lia. intros Hf. congruence.
Qed.

(** A batch accounts for what it does: the locations its outcomes list,
    taken in order, are the objects written during the run; it sends
    between one and two queries per symbol, and exactly one per symbol,
    the profile's, when holdings are switched off. *)
Theorem scheduled_accounts_for_its_work symbols flag h self ev0 :
  symbols <> [] ->
  run (AlphaVantageETFIngest_init rt) h = (Ok self, ev0) ->
  exists results evs,
    run (etf_data_ingest_scheduled rt (mkCloudEvent (Some symbols) flag)) h =
      (Ok (Some results), evs) /\
    List.concat (map files_created results) = map location_of (written evs) /\
    List.length symbols <= List.length (api_calls evs) /\
    List.length (api_calls evs) <= 2 * List.length symbols /\
    (truthy (default_to (VBool true) flag) = false ->
     api_calls evs = map (fun s => Some (profile_request self s)) symbols).
Proof.
  intros Hne Hinit.
  assert (Ht : truthy (VList symbols) = true)
    by (destruct symbols; [congruence | reflexivity]).
  rewrite etf_data_ingest_scheduled_eq. unfold run. unfold_prog.
  cbn [ce_symbols ce_include_holdings].
  rewrite Ht. cbn [negb]. unfold_prog.
  rewrite AlphaVantageETFIngest_init_frame. tidy_app. rewrite Hinit. tidy_app.
  apply AlphaVantageETFIngest_init_ok_events in Hinit. subst ev0.
  match goal with
  | |- context [for_each symbols (batch_body rt self ?v) ?r ?h'] =>
      destruct (batch_loop_tally self v symbols r h')
      as (outcomes & evs & Hloop & Hcat & Hlo & Hhi & Hflag)
  end.
  rewrite Hloop. tidy_app.
  do 2 eexists. split; [reflexivity|].
  cbn [written api_calls].
  rewrite written_app, api_calls_app. cbn [written api_calls].
  rewrite !app_nil_r. repeat split; assumption.
Qed.

End BatchMore.

(** ** What the log says about an ingestion *)

Lemma error_lines_app (a b : list event) :
  error_lines (a ++ b) = (error_lines a ++ error_lines b)%list.
Proof.
  induction a as [|e a IH]; [reflexivity|].
  destruct e as [|[| |] msg| | |]; cbn; rewrite IH; reflexivity.
Qed.

Section LogMore.

Variable rt : runtime.
Variable self : AlphaVantageETFIngest.
Variable symbol : value.

Lemma fetch_ok_is_quiet h data ev :
  run (get_etf_profile rt self symbol) h = (Ok data, ev) \/
  run (get_etf_holdings rt self symbol) h = (Ok data, ev) ->
  error_lines ev = [].
Proof.
  intros [H | H]; revert H; unfold run, get_etf_profile, get_etf_holdings;
    case_prog; intros [=]; subst; reflexivity.
Qed.

Lemma store_ok_is_quiet data data_type h path ev :
  run (store_to_gcs rt self data symbol data_type) h = (Ok path, ev) ->
  error_lines ev = [].
Proof.
  unfold run, store_to_gcs. case_prog; intros [=]; subst; reflexivity.
Qed.

(** A successful ingestion logs no error line; a failed one logs, as its
    last error line, the symbol and the message that its outcome
    carries. *)
Theorem ingest_logs_its_failure include_holdings S (s : S) h :
  exists o evs,
    ingest_etf_data rt self symbol include_holdings s h = (Ok o, s, evs) /\
    (status o = Some "success" -> error_lines evs = []) /\
    (status o = Some "error" ->
     exists msg,
       error_message o = Some msg /\
       last (error_lines evs) "" =
         "处理 ETF " ++ fmt rt symbol ++ " 数据时出错: " ++ msg).
Proof.
  assert (Hlast : forall (l : list string) x, last (l ++ [x]) "" = x)
    by (intros l x; apply last_last).
  rewrite ingest_etf_data_eq. cbv zeta.
  unfold ingest_start, ingest_error_log, ingest_done_log.
  destruct (run (get_etf_profile rt self symbol) _) as [[data|e] ev1] eqn:H1.
  2: { do 2 eexists; split; [reflexivity|]. cbn [failed set_error_message
         set_status status error_message]. split; [discriminate|].
       intros _. eexists. split; [reflexivity|].
       cbn [app error_lines]. rewrite error_lines_app. cbn [error_lines].
       apply Hlast. }
  apply (fun H => fetch_ok_is_quiet _ _ _ (or_introl H)) in H1.
  destruct (run (store_to_gcs rt self data symbol "profile") _)
    as [[path|e] ev2] eqn:H2.
  2: { do 2 eexists; split; [reflexivity|]. cbn [failed set_error_message
         set_status status error_message]. split; [discriminate|].
       intros _. eexists. split; [reflexivity|].
       cbn [app error_lines]. rewrite !error_lines_app, app_assoc.
       cbn [error_lines]. apply Hlast. }
  apply store_ok_is_quiet in H2.
  destruct include_holdings.
  2: { do 2 eexists; split; [reflexivity|]. cbn [set_status append_file status].
       split; [|discriminate]. intros _.
       cbn [app error_lines]. rewrite !error_lines_app, H1, H2. reflexivity. }
  destruct (run (get_etf_holdings rt self symbol) _) as [[hdata|e] ev3] eqn:H3.
  2: { do 2 eexists; split; [reflexivity|]. cbn [failed set_error_message
         set_status status error_message]. split; [discriminate|].
       intros _. eexists. split; [reflexivity|].
       cbn [app error_lines]. rewrite !error_lines_app, !app_assoc.
       cbn [error_lines]. apply Hlast. }
  apply (fun H => fetch_ok_is_quiet _ _ _ (or_intror H)) in H3.
  destruct (run (store_to_gcs rt self hdata symbol "holdings") _)
    as [[path2|e] ev4] eqn:H4.
  - apply store_ok_is_quiet in H4.
    do 2 eexists; split; [reflexivity|]. cbn [set_status append_file status].
    split; [|discriminate]. intros _.
    cbn [app error_lines]. rewrite !error_lines_app, H1, H2, H3, H4. reflexivity.
  - do 2 eexists; split; [reflexivity|]. cbn [failed set_error_message
      set_status status error_message]. split; [discriminate|].
    intros _. eexists. split; [reflexivity|].
    cbn [app error_lines]. rewrite !error_lines_app, !app_assoc.
    cbn [error_lines]. apply Hlast.
Qed.

End LogMore.

(** * Example runs *)

(** A batch of QQQ and SPY in which the store refuses SPY's holdings: both
    symbols get an outcome, in order. *)
Lemma scheduled_one_outcome_per_entry_witness :
  [VStr "QQQ"; VStr "SPY"] <> [] /\
  run (AlphaVantageETFIngest_init runtime_spy_holdings_refused) [] =
    (Ok example_self, [EvStorageClient None]) /\
  exists results evs,
    run (etf_data_ingest_scheduled runtime_spy_holdings_refused
           (mkCloudEvent (Some [VStr "QQQ"; VStr "SPY"]) None)) [] =
      (Ok (Some results), evs) /\
    List.length results = 2 /\
    (forall i sym, nth_error [VStr "QQQ"; VStr "SPY"] i = Some sym ->
                   exists o, nth_error results i = Some o /\ o_symbol o = sym) /\
    profile_queries evs = [VStr "QQQ"; VStr "SPY"] /\
    (forall names, [VStr "QQQ"; VStr "SPY"] = map VStr names -> NoDup names ->
                   List.length results = distinct_count names).
Proof.
  assert (Hne : [VStr "QQQ"; VStr "SPY"] <> []) by discriminate.
  assert (Hinit : run (AlphaVantageETFIngest_init runtime_spy_holdings_refused) [] =
                  (Ok example_self, [EvStorageClient None])) by reflexivity.
  split; [exact Hne|]. split; [exact Hinit|].
  exact (scheduled_one_outcome_per_entry runtime_spy_holdings_refused
           [VStr "QQQ"; VStr "SPY"] None [] example_self
           [EvStorageClient None] Hne Hinit).
Defined.

(** The claim as the spec words it fails on a list that repeats a symbol:
    ["QQQ"; "QQQ"] has one distinct symbol and gets two outcomes.  And
    without a credential the run raises and returns no outcomes at all. *)
Lemma scheduled_duplicates_counted :
  (exists results evs,
      run (etf_data_ingest_scheduled runtime_ok
             (mkCloudEvent (Some (map VStr ["QQQ"; "QQQ"])) None)) [] =
        (Ok (Some results), evs) /\
      List.length results = 2 /\
      distinct_count ["QQQ"; "QQQ"] = 1 /\
      List.length results <> distinct_count ["QQQ"; "QQQ"]) /\
  (exists e evs,
      run (etf_data_ingest_scheduled runtime_unconfigured
             (mkCloudEvent (Some [VStr "QQQ"]) None)) [] = (Raise e, evs) /\
      profile_queries evs = []).
Proof.
  split.
  - do 2 eexists. split; [vm_compute; reflexivity|].
    repeat split. cbn. discriminate.
  - do 2 eexists. split; [vm_compute; reflexivity | reflexivity].
Qed.

(** SPY's holdings are refused by the store: the failure is returned in
    SPY's outcome, and QQQ, which comes after SPY, is still ingested. *)
Lemma failures_stay_with_their_symbol_witness :
  step_fails runtime_spy_holdings_refused example_self (VStr "SPY") true []
             storage_down /\
  (exists o evs,
      ingest_etf_data runtime_spy_holdings_refused example_self (VStr "SPY")
                      true tt [] = (Ok o, tt, evs) /\
      status o = Some "error" /\
      error_message o = Some "403 quota exceeded") /\
  (exists results evs,
      run (etf_data_ingest_scheduled runtime_spy_holdings_refused
             (mkCloudEvent (Some [VStr "SPY"; VStr "QQQ"]) None)) [] =
        (Ok (Some results), evs) /\
      Forall settled results /\
      profile_queries evs = [VStr "SPY"; VStr "QQQ"] /\
      forall i o, nth_error results i = Some o -> status o = Some "error" ->
        forall j sym, i < j ->
          nth_error [VStr "SPY"; VStr "QQQ"] j = Some sym ->
          exists o', nth_error results j = Some o' /\ o_symbol o' = sym).
Proof.
  destruct (failures_stay_with_their_symbol runtime_spy_holdings_refused
              example_self (VStr "SPY") true unit tt [])
    as (_ & Hcaught & Hbatch).
  assert (Hfail : step_fails runtime_spy_holdings_refused example_self
                             (VStr "SPY") true [] storage_down).
  { right. split; [reflexivity|]. eexists.
    eapply holdings_write_fails; reflexivity. }
  split; [exact Hfail|]. split.
  - exact (Hcaught storage_down Hfail).
  - apply Hbatch with (ev0 := [EvStorageClient None]);
      [discriminate | reflexivity].
Defined.

(** BADTICKER: the upstream answers 200 with an error message. *)
Lemma profile_failure_halts_witness :
  profile_step_fails runtime_api_error example_self (VStr "BADTICKER") []
    (api_error runtime_api_error (VStr "Invalid API call.")) /\
  exists o evs,
    ingest_etf_data runtime_api_error example_self (VStr "BADTICKER") true tt [] =
      (Ok o, tt, evs) /\
    status o = Some "error" /\
    error_message o =
      Some (exn_str (api_error runtime_api_error (VStr "Invalid API call."))) /\
    files_created o = [] /\
    written evs = [] /\
    api_calls evs = [Some (profile_request example_self (VStr "BADTICKER"))] /\
    Forall (fun ur => kind_of (fst ur) = Some (VStr "profile")) (uploads evs).
Proof.
  assert (Hfail : profile_step_fails runtime_api_error example_self
                    (VStr "BADTICKER") []
                    (api_error runtime_api_error (VStr "Invalid API call."))).
  { eapply profile_api_error_in_200; reflexivity. }
  split; [exact Hfail|].
  exact (profile_failure_halts runtime_api_error example_self
           (VStr "BADTICKER") true unit tt [] _ Hfail).
Defined.

(** SPY: the profile is written, the holdings are refused. *)
Lemma holdings_failure_keeps_profile_witness :
  holdings_step_fails runtime_spy_holdings_refused example_self (VStr "SPY") []
    "gs://etf-bucket/etf_data/profile/SPY/2024/01/02/SPY_profile_20240102_030405.json"
    storage_down /\
  exists o evs u,
    ingest_etf_data runtime_spy_holdings_refused example_self (VStr "SPY")
                    true tt [] = (Ok o, tt, evs) /\
    status o = Some "error" /\
    error_message o = Some (exn_str storage_down) /\
    files_created o =
      ["gs://etf-bucket/etf_data/profile/SPY/2024/01/02/SPY_profile_20240102_030405.json"] /\
    written evs = [u] /\
    "gs://etf-bucket/etf_data/profile/SPY/2024/01/02/SPY_profile_20240102_030405.json"
      = location_of u /\
    kind_of u = Some (VStr "profile").
Proof.
  assert (Hfail : holdings_step_fails runtime_spy_holdings_refused example_self
                    (VStr "SPY") []
                    "gs://etf-bucket/etf_data/profile/SPY/2024/01/02/SPY_profile_20240102_030405.json"
                    storage_down).
  { eapply holdings_write_fails; reflexivity. }
  split; [exact Hfail|].
  exact (holdings_failure_keeps_profile runtime_spy_holdings_refused
           example_self (VStr "SPY") unit tt [] _ _ Hfail).
Defined.

(** A payload with a rate-limit note is returned by both fetches. *)
Lemma fetch_fails_iff_error_message_witness :
  status_passes note_response /\
  resp_json note_response = Ok (VDict note_body) /\
  profile_response runtime_note example_self (VStr "QQQ") [] =
    GetReturns note_response /\
  holdings_response runtime_note example_self (VStr "QQQ") [] =
    GetReturns note_response /\
  fst (run (get_etf_profile runtime_note example_self (VStr "QQQ")) []) =
    Ok (VDict note_body) /\
  fst (run (get_etf_holdings runtime_note example_self (VStr "QQQ")) []) =
    Ok (VDict note_body).
Proof.
  assert (Hst : status_passes note_response) by reflexivity.
  assert (Hjson : resp_json note_response = Ok (VDict note_body))
    by reflexivity.
  destruct (fetch_fails_iff_error_message runtime_note example_self
              (VStr "QQQ") [] note_response note_body Hst Hjson)
    as [Hprofile Hholdings].
  split; [exact Hst|]. split; [exact Hjson|].
  split; [reflexivity|]. split; [reflexivity|]. split.
  - apply (Hprofile eq_refl _ _ (surjective_pairing _)). reflexivity.
  - apply (Hholdings eq_refl _ _ (surjective_pairing _)). reflexivity.
Defined.

(** QQQ without holdings: one query, one object, one location. *)
Lemma ingest_profile_only_witness :
  profile_step_succeeds runtime_ok example_self (VStr "QQQ") []
    "gs://etf-bucket/etf_data/profile/QQQ/2024/01/02/QQQ_profile_20240102_030405.json" /\
  exists o evs,
    ingest_etf_data runtime_ok example_self (VStr "QQQ") false tt [] =
      (Ok o, tt, evs) /\
    api_calls evs = [Some (profile_request example_self (VStr "QQQ"))] /\
    status o = Some "success" /\
    files_created o =
      ["gs://etf-bucket/etf_data/profile/QQQ/2024/01/02/QQQ_profile_20240102_030405.json"] /\
    List.length (written evs) = 1.
Proof.
  assert (Hok : profile_step_succeeds runtime_ok example_self (VStr "QQQ") []
                  "gs://etf-bucket/etf_data/profile/QQQ/2024/01/02/QQQ_profile_20240102_030405.json").
  { do 3 eexists. split; reflexivity. }
  split; [exact Hok|].
  destruct (ingest_profile_only runtime_ok example_self (VStr "QQQ") unit tt [])
    as (o & evs & Hrun & Hcalls & Hsuccess).
  destruct (Hsuccess _ Hok) as (Hst & Hfiles & u & _ & Hw & _).
  exists o, evs. rewrite Hw. repeat split; assumption.
Defined.

(** QQQ's profile at 2024-01-02 03:04:05, and one second later. *)
Lemma store_to_gcs_key_witness :
  clock runtime_ok [] = example_time /\
  clock runtime_ok (after_first_reading runtime_ok []) = example_time /\
  (exists r ev u res,
      run (store_to_gcs runtime_ok example_self example_payload (VStr "QQQ")
                        "profile") [] = (r, ev) /\
      uploads ev = [(u, res)] /\
      up_blob_name u =
        "etf_data/profile/QQQ/2024/01/02/QQQ_profile_20240102_030405.json") /\
  wf_datetime example_time /\ wf_datetime example_time_later /\
  seconds_of example_time <> seconds_of example_time_later /\
  storage_key "QQQ" "profile" (seconds_of example_time) <>
  storage_key "QQQ" "profile" (seconds_of example_time_later).
Proof.
  destruct (store_to_gcs_key runtime_ok example_self example_payload
              (VStr "QQQ") "profile" [] example_time eq_refl eq_refl)
    as ((r & ev & u & res & Hrun & Hup & Hname & _) & _ & Hdistinct).
  assert (Hwf : wf_datetime example_time)
    by (unfold wf_datetime; cbn; lia).
  assert (Hwf' : wf_datetime example_time_later)
    by (unfold wf_datetime; cbn; lia).
  assert (Hne : seconds_of example_time <> seconds_of example_time_later)
    by discriminate.
  split; [reflexivity|]. split; [reflexivity|]. split.
  - exists r, ev, u, res. repeat split; assumption.
  - split; [exact Hwf|]. split; [exact Hwf'|]. split; [exact Hne|].
    exact (Hdistinct example_time_later Hwf Hwf' Hne).
Defined.

(** The handler on a GET, on a POST without a body, on a POST without a
    symbol, on a POST for QQQ that succeeds, on a POST for BADTICKER that
    the upstream rejects, and without a credential. *)
Lemma etf_data_ingest_answers_witness :
  run (etf_data_ingest runtime_ok (mkRequest "GET" None)) [] =
    (Ok (BodyError "只支持 POST 请求", 405), []) /\
  run (etf_data_ingest runtime_ok (mkRequest "POST" None)) [] =
    (Ok (BodyError "请求体必须是有效的 JSON", 400), []) /\
  run (etf_data_ingest runtime_ok
         (post (VDict [("include_holdings", VBool true)]))) [] =
    (Ok (BodyError "参数 symbol 是必需的", 400), []) /\
  (exists o ev,
      run (etf_data_ingest runtime_ok
             (post (VDict [("symbol", VStr "QQQ");
                           ("include_holdings", VBool true)]))) [] =
        (Ok (BodyOutcome o, 200), ev) /\
      status o = Some "success" /\ List.length (files_created o) = 2) /\
  (exists o ev,
      run (etf_data_ingest runtime_api_error
             (post (VDict [("symbol", VStr "BADTICKER");
                           ("include_holdings", VBool true)]))) [] =
        (Ok (BodyOutcome o, 500), ev) /\
      status o = Some "error" /\ files_created o = []) /\
  (exists ts evs,
      run (etf_data_ingest runtime_unconfigured
             (post (VDict [("symbol", VStr "QQQ")]))) [] =
        (Ok (BodyFailure "error"
               "ALPHA_VANTAGE_API_KEY environment variable is required" ts,
             500), evs) /\
      api_calls evs = [] /\ uploads evs = []).
Proof.
  split; [|split; [|split; [|split; [|split]]]].
  - apply (etf_data_ingest_answers runtime_ok (mkRequest "GET" None) []).
    discriminate.
  - apply (etf_data_ingest_answers runtime_ok (mkRequest "POST" None) []);
      [reflexivity | left; reflexivity].
  - apply (etf_data_ingest_answers runtime_ok
             (post (VDict [("include_holdings", VBool true)])) []
             ) with (d := [("include_holdings", VBool true)]);
      [reflexivity | reflexivity | discriminate | reflexivity].
  - destruct (etf_data_ingest_answers runtime_ok
                (post (VDict [("symbol", VStr "QQQ");
                              ("include_holdings", VBool true)])) [])
      as (_ & _ & _ & Hrun & _).
    destruct (Hrun [("symbol", VStr "QQQ"); ("include_holdings", VBool true)]
                   (VStr "QQQ") example_self [EvStorageClient None]
                   eq_refl eq_refl eq_refl eq_refl eq_refl)
      as (o & ev & Hingest & Hhandler & Hcode & _).
    assert (Ho : status o = Some "success" /\ List.length (files_created o) = 2).
    { vm_compute in Hingest. injection Hingest as <- _. split; reflexivity. }
    exists o, ([EvStorageClient None] ++ ev)%list.
    rewrite Hhandler, (Hcode (proj1 Ho)). split; [reflexivity | exact Ho].
  - destruct (etf_data_ingest_answers runtime_api_error
                (post (VDict [("symbol", VStr "BADTICKER");
                              ("include_holdings", VBool true)])) [])
      as (_ & _ & _ & Hrun & _).
    destruct (Hrun [("symbol", VStr "BADTICKER");
                    ("include_holdings", VBool true)]
                   (VStr "BADTICKER") example_self [EvStorageClient None]
                   eq_refl eq_refl eq_refl eq_refl eq_refl)
      as (o & ev & Hingest & Hhandler & _ & Hcode).
    assert (Ho : status o = Some "error" /\ files_created o = []).
    { vm_compute in Hingest. injection Hingest as <- _. split; reflexivity. }
    exists o, ([EvStorageClient None] ++ ev)%list.
    rewrite Hhandler, Hcode; [split; [reflexivity | exact Ho]|].
    rewrite (proj1 Ho). discriminate.
  - destruct (etf_data_ingest_answers runtime_unconfigured
                (post (VDict [("symbol", VStr "QQQ")])) [])
      as (_ & _ & _ & _ & Hrun).
    exact (Hrun [("symbol", VStr "QQQ")] (VStr "QQQ")
                (mkExn CValueError
                   "ALPHA_VANTAGE_API_KEY environment variable is required")
                [] eq_refl eq_refl eq_refl eq_refl eq_refl).
Defined.

(** The claim as the spec words it fails when no credential is configured:
    a well-formed POST for QQQ is answered 500 with an error record, which
    is neither a client error nor an ingestion outcome. *)
Lemma etf_data_ingest_unconfigured :
  exists ts evs,
    run (etf_data_ingest runtime_unconfigured
           (post (VDict [("symbol", VStr "QQQ")]))) [] =
      (Ok (BodyFailure "error"
             "ALPHA_VANTAGE_API_KEY environment variable is required" ts,
           500), evs) /\
    ~ client_error
        (BodyFailure "error"
           "ALPHA_VANTAGE_API_KEY environment variable is required" ts, 500) /\
    (forall o,
        BodyFailure "error"
          "ALPHA_VANTAGE_API_KEY environment variable is required" ts
        <> BodyOutcome o).
Proof.
  do 2 eexists. split; [vm_compute; reflexivity|]. split.
  - intros [[m Hm] _]. discriminate.
  - intros o. discriminate.
Qed.

(** ** More example runs *)

(** The profile of QQQ when the upstream cannot be reached, and its
    holdings when the upstream answers 503. *)
Lemma fetch_reraises_witness :
  decoded (profile_response runtime_down example_self (VStr "QQQ") []) =
    Raise connection_refused /\
  decoded (holdings_response runtime_unavailable example_self (VStr "QQQ") []) =
    Raise (mkExn (CRequestException "HTTPError")
                 "503 Server Error: Service Unavailable") /\
  (exists ev,
      run (get_etf_profile runtime_down example_self (VStr "QQQ")) [] =
        (Raise connection_refused, ev) /\
      error_lines ev = ["请求 Alpha Vantage API 失败: connection refused"]) /\
  (exists ev,
      run (get_etf_holdings runtime_unavailable example_self (VStr "QQQ")) [] =
        (Raise (mkExn (CRequestException "HTTPError")
                      "503 Server Error: Service Unavailable"), ev) /\
      error_lines ev =
        ["请求 Alpha Vantage API 失败: 503 Server Error: Service Unavailable"]).
Proof.
  split; [reflexivity|]. split; [reflexivity|]. split.
  - apply (fetch_reraises runtime_down example_self (VStr "QQQ") []
             connection_refused). reflexivity.
  - apply (fetch_reraises runtime_unavailable example_self (VStr "QQQ") []
             (mkExn (CRequestException "HTTPError")
                    "503 Server Error: Service Unavailable")). reflexivity.
Defined.

(** The profile and the holdings of QQQ, both answered with the example
    payload. *)
Lemma fetch_returns_the_body_witness :
  run (get_etf_profile runtime_ok example_self (VStr "QQQ")) [] =
    (Ok example_payload,
     snd (run (get_etf_profile runtime_ok example_self (VStr "QQQ")) [])) /\
  run (get_etf_holdings runtime_ok example_self (VStr "QQQ")) [] =
    (Ok example_payload,
     snd (run (get_etf_holdings runtime_ok example_self (VStr "QQQ")) [])) /\
  decoded (profile_response runtime_ok example_self (VStr "QQQ") []) =
    Ok example_payload /\
  decoded (holdings_response runtime_ok example_self (VStr "QQQ") []) =
    Ok example_payload.
Proof.
  assert (Hp : run (get_etf_profile runtime_ok example_self (VStr "QQQ")) [] =
               (Ok example_payload,
                snd (run (get_etf_profile runtime_ok example_self (VStr "QQQ")) [])))
    by reflexivity.
  assert (Hh : run (get_etf_holdings runtime_ok example_self (VStr "QQQ")) [] =
               (Ok example_payload,
                snd (run (get_etf_holdings runtime_ok example_self (VStr "QQQ")) [])))
    by reflexivity.
  split; [exact Hp|]. split; [exact Hh|]. split.
  - apply (proj1 (fetch_returns_the_body runtime_ok example_self (VStr "QQQ") []
                    example_payload _) Hp).
  - apply (proj2 (fetch_returns_the_body runtime_ok example_self (VStr "QQQ") []
                    example_payload _) Hh).
Defined.

(** The upstream answers [null]. *)
Lemma fetch_of_non_object_witness :
  (forall d, VNone <> VDict d) /\
  decoded (profile_response runtime_null_body example_self (VStr "QQQ") []) =
    Ok VNone /\
  decoded (holdings_response runtime_null_body example_self (VStr "QQQ") []) =
    Ok VNone /\
  is_type_error
    (fst (run (get_etf_profile runtime_null_body example_self (VStr "QQQ")) [])) /\
  is_type_error
    (fst (run (get_etf_holdings runtime_null_body example_self (VStr "QQQ")) [])).
Proof.
  assert (Hno : forall d, VNone <> VDict d) by discriminate.
  destruct (fetch_of_non_object runtime_null_body example_self (VStr "QQQ") []
              VNone Hno) as [Hp Hh].
  split; [exact Hno|]. split; [reflexivity|]. split; [reflexivity|]. split.
  - apply (Hp eq_refl). reflexivity.
  - apply (Hh eq_refl). reflexivity.
Defined.

(** A write that starts in the last second of a day and reads the clock
    again on the next: the partition is not the file name's day. *)
Lemma store_to_gcs_partition_witness :
  clock runtime_midnight [] = last_second /\
  clock runtime_midnight (after_first_reading runtime_midnight []) = next_day /\
  wf_datetime last_second /\ wf_datetime next_day /\
  exists u res,
    uploads (snd (run (store_to_gcs runtime_midnight example_self
                         example_payload (VStr "QQQ") "profile") [])) =
      [(u, res)] /\
    up_blob_name u =
      "etf_data/profile/QQQ/2024/01/03/QQQ_profile_20240102_235959.json" /\
    up_blob_name u <>
      storage_key "QQQ" "profile" (seconds_of last_second).
Proof.
  assert (W1 : wf_datetime last_second) by (unfold wf_datetime; cbn; lia).
  assert (W2 : wf_datetime next_day) by (unfold wf_datetime; cbn; lia).
  split; [reflexivity|]. split; [reflexivity|].
  split; [exact W1|]. split; [exact W2|].
  destruct (store_to_gcs_partition runtime_midnight example_self
              example_payload (VStr "QQQ") "profile" [] last_second next_day
              eq_refl eq_refl W1 W2) as (u & res & Hup & Hiff).
  exists u, res. split; [exact Hup|].
  assert (Hu : u = upload_of runtime_midnight example_self example_payload
                             (VStr "QQQ") "profile" []).
  { vm_compute in Hup. injection Hup as Hup _. rewrite <- Hup.
    vm_compute. reflexivity. }
  split.
  - rewrite Hu. vm_compute. reflexivity.
  - intros Hkey. apply Hiff in Hkey. discriminate Hkey.
Defined.

(** Two names for QQQ's profile at the example time are the same name. *)
Lemma blob_names_are_unique_witness :
  wf_datetime example_time /\
  blob_name_of runtime_ok (VStr "QQQ") "profile"
               (strftime_stamp example_time) (strftime_date_path example_time) =
  blob_name_of runtime_ok (VStr "QQQ") "profile"
               (strftime_stamp example_time) (strftime_date_path example_time) /\
  fmt runtime_ok (VStr "QQQ") = fmt runtime_ok (VStr "QQQ") /\
  seconds_of example_time = seconds_of example_time /\
  date_of example_time = date_of example_time.
Proof.
  assert (W : wf_datetime example_time) by (unfold wf_datetime; cbn; lia).
  split; [exact W|]. split; [reflexivity|].
  apply (proj1 (blob_names_are_unique runtime_ok)
               (VStr "QQQ") (VStr "QQQ") "profile"
               example_time example_time example_time example_time W W W W).
  reflexivity.
Defined.


(** QQQ with holdings, everything working. *)
Lemma ingest_with_holdings_succeeds_witness :
  exists o evs,
    ingest_etf_data runtime_ok example_self (VStr "QQQ") true tt [] =
      (Ok o, tt, evs) /\
    status o = Some "success" /\ error_message o = None /\
    o_timestamp o = "2024-01-02T03:04:05" /\
    files_created o =
      ["gs://etf-bucket/etf_data/profile/QQQ/2024/01/02/QQQ_profile_20240102_030405.json";
       "gs://etf-bucket/etf_data/holdings/QQQ/2024/01/02/QQQ_holdings_20240102_030405.json"] /\
    map up_data (written evs) = [example_payload; example_payload].
Proof.
  destruct (ingest_with_holdings_succeeds runtime_ok example_self (VStr "QQQ")
              unit tt [] example_payload _
              "gs://etf-bucket/etf_data/profile/QQQ/2024/01/02/QQQ_profile_20240102_030405.json"
              _ example_payload _
              "gs://etf-bucket/etf_data/holdings/QQQ/2024/01/02/QQQ_holdings_20240102_030405.json"
              _ eq_refl eq_refl eq_refl eq_refl)
    as (o & evs & Hrun & Hst & Hmsg & Htime & Hfiles & _ & _ & Hdata & _).
  exists o, evs. repeat split; assumption.
Defined.

(** QQQ with holdings, everything working: both queries are sent. *)
Lemma holdings_asked_iff_profile_stored_witness :
  profile_step_succeeds runtime_ok example_self (VStr "QQQ") []
    "gs://etf-bucket/etf_data/profile/QQQ/2024/01/02/QQQ_profile_20240102_030405.json" /\
  exists o evs,
    ingest_etf_data runtime_ok example_self (VStr "QQQ") true tt [] =
      (Ok o, tt, evs) /\
    api_calls evs = [Some (profile_request example_self (VStr "QQQ"));
                     Some (holdings_request example_self (VStr "QQQ"))].
Proof.
  assert (Hok : profile_step_succeeds runtime_ok example_self (VStr "QQQ") []
                  "gs://etf-bucket/etf_data/profile/QQQ/2024/01/02/QQQ_profile_20240102_030405.json").
  { do 3 eexists. split; reflexivity. }
  split; [exact Hok|].
  destruct (holdings_asked_iff_profile_stored runtime_ok example_self
              (VStr "QQQ") true unit tt [])
    as (o & evs & Hrun & Hyes & _).
  exists o, evs. split; [exact Hrun|].
  apply Hyes. split; [reflexivity | eauto].
Defined.

(** A POST for QQQ with ['include_holdings'] set to [null]. *)
Lemma etf_data_ingest_holdings_flag_witness :
  run (AlphaVantageETFIngest_init runtime_ok) [] =
    (Ok example_self, [EvStorageClient None]) /\
  exists o ev,
    run (etf_data_ingest runtime_ok
           (post (VDict [("symbol", VStr "QQQ"); ("include_holdings", VNone)])))
        [] = (Ok (BodyOutcome o, http_code o), ([EvStorageClient None] ++ ev)%list) /\
    api_calls ([EvStorageClient None] ++ ev)%list =
      [Some (profile_request example_self (VStr "QQQ"))].
Proof.
  split; [reflexivity|].
  destruct (etf_data_ingest_holdings_flag runtime_ok
              (post (VDict [("symbol", VStr "QQQ"); ("include_holdings", VNone)]))
              [] [("symbol", VStr "QQQ"); ("include_holdings", VNone)]
              (VStr "QQQ") example_self [EvStorageClient None]
              eq_refl eq_refl eq_refl eq_refl eq_refl)
    as (o & ev & Hrun & _ & Hfalse).
  exists o, ev. split; [exact Hrun|].
  apply (Hfalse VNone); reflexivity.
Defined.

(** A POST whose body is the JSON array [[1]]. *)
Lemma etf_data_ingest_not_an_object_witness :
  method (post (VList [VInt 1])) = "POST" /\
  truthy (VList [VInt 1]) = true /\
  (forall d, VList [VInt 1] <> VDict d) /\
  exists msg ts evs,
    run (etf_data_ingest runtime_ok (post (VList [VInt 1]))) [] =
      (Ok (BodyFailure "error" msg ts, 500), evs) /\
    api_calls evs = [] /\ uploads evs = [].
Proof.
  assert (Hno : forall d, VList [VInt 1] <> VDict d) by discriminate.
  split; [reflexivity|]. split; [reflexivity|]. split; [exact Hno|].
  exact (etf_data_ingest_not_an_object runtime_ok (post (VList [VInt 1])) []
           (VList [VInt 1]) eq_refl eq_refl eq_refl Hno).
Defined.

(** An event with an empty list, and an event without a list. *)
Lemma scheduled_without_symbols_witness :
  run (etf_data_ingest_scheduled runtime_ok (mkCloudEvent (Some []) None)) [] =
    (Ok None, [EvLog ERROR "未提供 ETF 符号列表"]) /\
  run (etf_data_ingest_scheduled runtime_ok (mkCloudEvent None None)) [] =
    (Ok None, [EvLog ERROR "未提供 ETF 符号列表"]).
Proof.
  split.
  - apply (scheduled_without_symbols runtime_ok (mkCloudEvent (Some []) None) []).
    right. reflexivity.
  - apply (scheduled_without_symbols runtime_ok (mkCloudEvent None None) []).
    left. reflexivity.
Defined.

(** A batch for QQQ without a credential. *)
Lemma scheduled_raises_only_from_construction_witness :
  [VStr "QQQ"] <> [] /\
  run (AlphaVantageETFIngest_init runtime_unconfigured) [] =
    (Raise (mkExn CValueError
              "ALPHA_VANTAGE_API_KEY environment variable is required"), []) /\
  run (etf_data_ingest_scheduled runtime_unconfigured
         (mkCloudEvent (Some [VStr "QQQ"]) None)) [] =
    (Raise (mkExn CValueError
              "ALPHA_VANTAGE_API_KEY environment variable is required"),
     [EvLog ERROR
        "定时 Cloud Function 执行失败: ALPHA_VANTAGE_API_KEY environment variable is required"]).
Proof.
  assert (Hne : [VStr "QQQ"] <> []) by discriminate.
  split; [exact Hne|]. split; [reflexivity|].
  destruct (scheduled_raises_only_from_construction runtime_unconfigured
              [VStr "QQQ"] None [] Hne) as [Hraise _].
  exact (proj1 (Hraise _ [] eq_refl)).
Defined.

(** A batch of QQQ and SPY with holdings switched off. *)
Lemma scheduled_accounts_for_its_work_witness :
  [VStr "QQQ"; VStr "SPY"] <> [] /\
  run (AlphaVantageETFIngest_init runtime_ok) [] =
    (Ok example_self, [EvStorageClient None]) /\
  exists results evs,
    run (etf_data_ingest_scheduled runtime_ok
           (mkCloudEvent (Some [VStr "QQQ"; VStr "SPY"]) (Some (VBool false))))
        [] = (Ok (Some results), evs) /\
    List.concat (map files_created results) = map location_of (written evs) /\
    api_calls evs = [Some (profile_request example_self (VStr "QQQ"));
                     Some (profile_request example_self (VStr "SPY"))].
Proof.
  assert (Hne : [VStr "QQQ"; VStr "SPY"] <> []) by discriminate.
  split; [exact Hne|]. split; [reflexivity|].
  destruct (scheduled_accounts_for_its_work runtime_ok
              [VStr "QQQ"; VStr "SPY"] (Some (VBool false)) [] example_self
              [EvStorageClient None] Hne eq_refl)
    as (results & evs & Hrun & Hcat & _ & _ & Hflag).
  exists results, evs. split; [exact Hrun|]. split; [exact Hcat|].
  apply Hflag. reflexivity.
Defined.

(** BADTICKER: the last error line is the one of the ingestion, with the
    upstream's message. *)
Lemma ingest_logs_its_failure_witness :
  exists o evs,
    ingest_etf_data runtime_api_error example_self (VStr "BADTICKER") true tt [] =
      (Ok o, tt, evs) /\
    status o = Some "error" /\
    last (error_lines evs) "" =
      "处理 ETF BADTICKER 数据时出错: Alpha Vantage API 错误: Invalid API call.".
Proof.
  destruct (ingest_logs_its_failure runtime_api_error example_self
              (VStr "BADTICKER") true unit tt [])
    as (o & evs & Hrun & _ & Herr).
  assert (Ho : status o = Some "error" /\
               error_message o = Some "Alpha Vantage API 错误: Invalid API call.").
  { vm_compute in Hrun. injection Hrun as <- _. split; reflexivity. }
  destruct Ho as [Hs Hm].
  destruct (Herr Hs) as (msg & Hmsg & Hlast).
  exists o, evs. split; [exact Hrun|]. split; [exact Hs|].
  rewrite Hlast. rewrite Hm in Hmsg. injection Hmsg as <-. reflexivity.
Defined.
